(** * gateway-failover: a shallow embedding of [main.go] and of the
      gateway-resolution fragment, with the properties of the failover loop,
      the route switcher, the route inspector and the gateway resolver.

    The program talks to the kernel (netlink), to the interface registry,
    to [ping] and [dhcpcd] and to a lease file.  Those are taken as the
    operations of a [Platform]; every function of the program is a
    computation that threads the state of the host and records, in order,
    each boundary call it makes together with what the call returned. *)

From Stdlib Require Import String Ascii List ZArith NArith Bool Lia DecimalString.
From Stdlib Require DecimalPos DecimalZ.
Import ListNotations.
Local Open Scope string_scope.
Local Open Scope list_scope.

Set Implicit Arguments.

(* ===================================================================== *)
(** ** Go values *)

(** Go's [error] values.  [External] stands for an error made outside the
    program (netlink, os, os/exec, netip); the other constructors are the
    errors the program builds itself. *)
Inductive error : Type :=
| External (msg : string)
| ErrorsNew (msg : string)                         (* errors.New(msg), fmt.Errorf(msg) *)
| Errorf_no_routes (dst : list Z)                  (* fmt.Errorf("no routes to %v", dst) *)
| Errorf_link_index (idx : Z) (wrapped : error).   (* fmt.Errorf("looking up link index %d: %w", idx, err) *)

(** A Go result pair [(v, err)]: the value is meaningful only when [err] is
    nil; every failing return of the program carries the zero value. *)
Inductive result (A : Type) : Type :=
| Ok (a : A)
| Err (e : error).
Arguments Ok {A} a.
Arguments Err {A} e.

(** [net.IP] and [net.IPMask]: byte slices, each byte in [0, 255]. *)
Definition IP := list Z.

(** [net.IPv4(a, b, c, d)]: the 16-byte form, with the v4-in-v6 prefix. *)
Definition net_IPv4 (a b c d : Z) : IP :=
  [0; 0; 0; 0; 0; 0; 0; 0; 0; 0; 255; 255; a; b; c; d]%Z.

Record IPNet : Type := { ipnet_IP : IP; ipnet_Mask : IP }.

(** [netlink.Route], with the fields the program sets or reads. *)
Record Route : Type := { Dst : option IPNet; LinkIndex : Z; Gw : IP }.

(** [net.Interface], with the fields the program reads. *)
Record Interface : Type := { Index : Z; Name : string }.

(** [var _, defaultDst, _ = net.ParseCIDR("0.0.0.0/0")] *)
Definition defaultDst : option IPNet :=
  Some {| ipnet_IP := [0; 0; 0; 0]%Z; ipnet_Mask := [0; 0; 0; 0]%Z |}.

(* ===================================================================== *)
(** ** The library functions the program uses on strings *)

(** [strconv.Itoa] *)
Definition strconv_Itoa (i : Z) : string := NilZero.string_of_int (Z.to_int i).

(** [filepath.Join dir name], for a clean [dir] and a [name] without
    separators or dots, where [Clean] changes nothing. *)
Definition filepath_Join (dir name : string) : string := dir ++ "/" ++ name.

(** [strings.HasPrefix s p] *)
Definition strings_HasPrefix (s p : string) : bool := prefix p s.

Fixpoint string_drop (n : nat) (s : string) : string :=
  match n, s with
  | O, _ => s
  | S _, EmptyString => EmptyString
  | S n', String _ s' => string_drop n' s'
  end.

(** [strings.Cut s sep]: the text before and after the first occurrence of
    [sep]; [s] itself, an empty rest and [false] when [sep] does not occur. *)
Fixpoint strings_Cut (s sep : string) : string * string * bool :=
  if prefix sep s then (EmptyString, string_drop (String.length sep) s, true)
  else match s with
       | EmptyString => (s, EmptyString, false)
       | String c s' =>
           let '(before, after, found) := strings_Cut s' sep in
           if found then (String c before, after, true)
           else (s, EmptyString, false)
       end.

Definition LF : ascii := "010"%char.
Definition CR : ascii := "013"%char.

(** The pieces of a text between its newlines; a last piece that no newline
    ends counts only when it is not empty ([bufio.ScanLines]). *)
Fixpoint raw_lines (s : string) : list string :=
  match s with
  | EmptyString => []
  | String c s' =>
      if Ascii.eqb c LF then EmptyString :: raw_lines s'
      else match raw_lines s' with
           | [] => [String c EmptyString]
           | l :: ls => String c l :: ls
           end
  end.

(** [dropCR]: one trailing carriage return is not part of the line. *)
Fixpoint dropCR (s : string) : string :=
  match s with
  | EmptyString => EmptyString
  | String c EmptyString => if Ascii.eqb c CR then EmptyString else s
  | String c s' => String c (dropCR s')
  end.

(** [bufio.MaxScanTokenSize]: a piece that does not fit the scanner's buffer
    makes [Scan] return false, like the end of the input. *)
Definition MaxScanTokenSize : N := 65536.

Definition fits_token (l : string) : bool :=
  (N.of_nat (String.length l) <? MaxScanTokenSize)%N.

Fixpoint take_while {A : Type} (p : A -> bool) (l : list A) : list A :=
  match l with
  | [] => []
  | x :: l' => if p x then x :: take_while p l' else []
  end.

(** The values [scanner.Text()] takes, in order, over the calls of
    [scanner.Scan()] that return true, for a [bufio.NewScanner] over a
    reader that delivers [content]. *)
Definition scanner_lines (content : string) : list string :=
  map dropCR (take_while fits_token (raw_lines content)).

(* ===================================================================== *)
(** ** The boundary of the program *)

(** What is outside the program: the state of the host and the calls into
    it.  Each call may change the host ([World -> _ * World]); nothing is
    assumed about what it answers. *)
Class Platform : Type := {
  World : Type;
  (** [netip.Addr], [netip.ParseAddr], [Addr.AsSlice] *)
  Addr : Type;
  netip_ParseAddr : string -> result Addr;
  Addr_AsSlice : Addr -> IP;
  (** [netlink.RouteGet], [netlink.RouteDel], [netlink.RouteAdd] *)
  netlink_RouteGet : IP -> World -> result (list Route) * World;
  netlink_RouteDel : Route -> World -> option error * World;
  netlink_RouteAdd : Route -> World -> option error * World;
  (** [net.InterfaceByIndex] *)
  net_InterfaceByIndex : Z -> World -> result Interface * World;
  (** [exec.Cmd.Run] of an argument vector, its output discarded *)
  exec_Run : list string -> World -> option error * World;
  (** [exec.Cmd.Output] of an argument vector *)
  exec_Output : list string -> World -> result string * World;
  (** [os.Open] of a path and the bytes the file then delivers *)
  os_Open : string -> World -> result string * World
}.

Section Boundary.
Context {P : Platform}.

(** An argument of a [log.Printf] call. *)
Inductive logarg : Type :=
| AString (s : string)
| AError (e : error)
| AAddr (a : Addr).

(** What the program does at its boundary, with what came back. *)
Inductive event : Type :=
| EvLog (format : string) (args : list logarg)
| EvRouteGet (dst : IP) (res : result (list Route))
| EvRouteDel (r : Route) (res : option error)
| EvRouteAdd (r : Route) (res : option error)
| EvInterfaceByIndex (idx : Z) (res : result Interface)
| EvRun (argv : list string) (res : option error)
| EvOutput (argv : list string) (res : result string)
| EvOpen (path : string) (res : result string).

(** A computation of the program: from the state of the host to a value,
    the new state of the host and the events of the computation. *)
Definition M (A : Type) : Type := World -> A * World * list event.

Definition ret {A : Type} (a : A) : M A := fun w => (a, w, []).

Definition bind {A B : Type} (m : M A) (k : A -> M B) : M B :=
  fun w =>
    let '(a, w1, t1) := m w in
    let '(b, w2, t2) := k a w1 in
    (b, w2, t1 ++ t2).

(** One boundary call: ask the host, record the call and its answer. *)
Definition call {A : Type} (op : World -> A * World) (ev : A -> event) : M A :=
  fun w => let '(a, w1) := op w in (a, w1, [ev a]).

Definition log_Printf (format : string) (args : list logarg) : M unit :=
  fun w => (tt, w, [EvLog format args]).

Definition RouteGet (dst : IP) : M (result (list Route)) :=
  call (netlink_RouteGet dst) (EvRouteGet dst).
Definition RouteDel (r : Route) : M (option error) :=
  call (netlink_RouteDel r) (EvRouteDel r).
Definition RouteAdd (r : Route) : M (option error) :=
  call (netlink_RouteAdd r) (EvRouteAdd r).
Definition InterfaceByIndex (idx : Z) : M (result Interface) :=
  call (net_InterfaceByIndex idx) (EvInterfaceByIndex idx).
Definition Cmd_Run (argv : list string) : M (option error) :=
  call (exec_Run argv) (EvRun argv).
Definition Cmd_Output (argv : list string) : M (result string) :=
  call (exec_Output argv) (EvOutput argv).
Definition Open (path : string) : M (result string) :=
  call (os_Open path) (EvOpen path).

(** The three components of a run. *)
Definition value {A : Type} (r : A * World * list event) : A := fst (fst r).
Definition world {A : Type} (r : A * World * list event) : World := snd (fst r).
Definition events {A : Type} (r : A * World * list event) : list event := snd r.
End Boundary.

Declare Scope go_scope.
Delimit Scope go_scope with go.
Notation "x <- m ;; k" := (bind m (fun x => k))
  (at level 100, m at next level, right associativity) : go_scope.
Notation "m ;;; k" := (bind m (fun _ => k))
  (at level 100, right associativity) : go_scope.

(* ===================================================================== *)
(** ** main.go *)

Module Main.

(** The command-line flags the functions read ([flag.String],
    [flag.Bool]); [flag.Parse] has run. *)
Record Flags : Type := {
  flagCheckIP : string;
  flagPrimaryInterface : string;
  flagPrimaryGateway : string;
  flagBackupInterface : string;
  flagBackupGateway : string;
  flagDryRun : bool;
  flagSystemdNetworkd : bool;
  flagDhcpcd : bool
}.

Section Program.
Context {P : Platform}.
Variable fl : Flags.
Local Open Scope go_scope.

(** [switchDefaultRoute] *)
Definition switchDefaultRoute
    (oldDev : Interface) (oldGw : Addr) (newDev : Interface) (newGw : Addr)
  : M (option error) :=
  err <- RouteDel {| Dst := defaultDst;
                     LinkIndex := Index oldDev;
                     Gw := Addr_AsSlice oldGw |} ;;
  (match err with
   | Some e => log_Printf "error removing old default route: %v" [AError e]
   | None => ret tt
   end) ;;;
  RouteAdd {| Dst := defaultDst;
              LinkIndex := Index newDev;
              Gw := Addr_AsSlice newGw |}.

(** [getDefaultRouteInterface] *)
Definition getDefaultRouteInterface : M (result string) :=
  let dst := net_IPv4 8 8 8 8 in
  routes <- RouteGet dst ;;
  match routes with
  | Err e => ret (Err e)
  | Ok [] => ret (Err (Errorf_no_routes dst))
  | Ok (r0 :: _) =>
      iface <- InterfaceByIndex (LinkIndex r0) ;;
      match iface with
      | Err e => ret (Err (Errorf_link_index (LinkIndex r0) e))
      | Ok i => ret (Ok (Name i))
      end
  end.

(** [doCheckOnce]; the context [ctx] belongs to the host, which decides
    what the probe returns. *)
Definition doCheckOnce
    (primary : Interface) (primaryGw : Addr)
    (backup : Interface) (backupGw : Addr)
  : M (option error) :=
  cur <- getDefaultRouteInterface ;;
  match cur with
  | Err e => ret (Some e)
  | Ok currentGateway =>
      err <- Cmd_Run ["ping"; "-I"; Name primary; "-c1"; flagCheckIP fl] ;;
      match err with
      | None =>
          if String.eqb currentGateway (Name backup) then
            log_Printf "primary interface up; switching from backup -> primary" [] ;;;
            if negb (flagDryRun fl)
            then switchDefaultRoute backup backupGw primary primaryGw
            else ret None
          else
            log_Printf "on primary interface; doing nothing" [] ;;;
            ret None
      | Some _ =>
          if String.eqb currentGateway (Name primary) then
            log_Printf "primary interface down; switching from primary -> backup" [] ;;;
            if negb (flagDryRun fl)
            then switchDefaultRoute primary primaryGw backup backupGw
            else ret None
          else
            log_Printf "on backup interface; doing nothing" [] ;;;
            ret None
      end
  end.

(** The [case <-ticker.C] branch of the main loop: one tick. *)
Definition tick
    (primary : Interface) (primaryGw : Addr)
    (backup : Interface) (backupGw : Addr)
  : M unit :=
  log_Printf "checking for internet status" [] ;;;
  err <- doCheckOnce primary primaryGw backup backupGw ;;
  match err with
  | Some e => log_Printf "error checking: %v" [AError e]
  | None => ret tt
  end.

(** The loop of [getGatewaySystemdNetworkd] over the scanned lines. *)
Fixpoint scanSystemdNetworkd (lines : list string) : result Addr :=
  match lines with
  | [] => Err (ErrorsNew "ROUTER not found in lease file")
  | line :: rest =>
      if strings_HasPrefix line "#" then scanSystemdNetworkd rest
      else
        let '(key, value, ok) := strings_Cut line "=" in
        if negb ok then scanSystemdNetworkd rest
        else if String.eqb key "ROUTER" then netip_ParseAddr value
        else scanSystemdNetworkd rest
  end.

(** [getGatewaySystemdNetworkd] *)
Definition getGatewaySystemdNetworkd (iface : Interface) : M (result Addr) :=
  let leaseFile :=
    filepath_Join "/run/systemd/netif/leases" (strconv_Itoa (Index iface)) in
  f <- Open leaseFile ;;
  match f with
  | Err e => ret (Err e)
  | Ok content => ret (scanSystemdNetworkd (scanner_lines content))
  end.

(** The loop of [getGatewayDhcpcd] over the scanned lines. *)
Fixpoint scanDhcpcd (lines : list string) : result Addr :=
  match lines with
  | [] => Err (ErrorsNew "routers not found in dhcpcd output")
  | line :: rest =>
      let '(key, value, ok) := strings_Cut line "=" in
      if negb ok then scanDhcpcd rest
      else if String.eqb key "routers" then netip_ParseAddr value
      else scanDhcpcd rest
  end.

(** [getGatewayDhcpcd] *)
Definition getGatewayDhcpcd (iface : Interface) : M (result Addr) :=
  out <- Cmd_Output ["dhcpcd"; "-U"; Name iface] ;;
  match out with
  | Err e => ret (Err e)
  | Ok o => ret (scanDhcpcd (scanner_lines o))
  end.

(** [getGateway] *)
Definition getGateway (iface : Interface) : M (result Addr) :=
  if flagSystemdNetworkd fl then getGatewaySystemdNetworkd iface
  else if flagDhcpcd fl then getGatewayDhcpcd iface
  else ret (Err (ErrorsNew "unimplemented")).

(** [parseOrGetGateway]; [autodetect] is the code after the [if], which
    both ways out of the [if] fall through to. *)
Definition parseOrGetGateway (val : string) (iface : Interface) : M (result Addr) :=
  let autodetect : M (result Addr) :=
    gw <- getGateway iface ;;
    match gw with
    | Err e => ret (Err e)
    | Ok a =>
        log_Printf "autodetected gateway for %s: %v"
                   [AString (Name iface); AAddr a] ;;;
        ret (Ok a)
    end in
  if negb (String.eqb val EmptyString) then
    match netip_ParseAddr val with
    | Ok gw => ret (Ok gw)
    | Err _ => autodetect
    end
  else autodetect.
End Program.
End Main.

(* ===================================================================== *)
(** ** The gateway-resolution fragment (the second source file) *)

Module Part000.

(** The flags this file declares; it has no dry-run flag. *)
Record Flags : Type := {
  flagCheckIP : string;
  flagPrimaryInterface : string;
  flagPrimaryGateway : string;
  flagBackupInterface : string;
  flagBackupGateway : string;
  flagSystemdNetworkd : bool;
  flagDhcpcd : bool
}.

Section Program.
Context {P : Platform}.
Variable fl : Flags.
Local Open Scope go_scope.

(** The loop of [getGatewaySystemdNetworkd] over the scanned lines. *)
Fixpoint scanSystemdNetworkd (lines : list string) : result Addr :=
  match lines with
  | [] => Err (ErrorsNew "ROUTER not found in lease file")
  | line :: rest =>
      if strings_HasPrefix line "#" then scanSystemdNetworkd rest
      else
        let '(key, value, ok) := strings_Cut line "=" in
        if negb ok then scanSystemdNetworkd rest
        else if String.eqb key "ROUTER" then netip_ParseAddr value
        else scanSystemdNetworkd rest
  end.

(** [getGatewaySystemdNetworkd] *)
Definition getGatewaySystemdNetworkd (iface : Interface) : M (result Addr) :=
  let leaseFile :=
    filepath_Join "/run/systemd/netif/leases" (strconv_Itoa (Index iface)) in
  f <- Open leaseFile ;;
  match f with
  | Err e => ret (Err e)
  | Ok content => ret (scanSystemdNetworkd (scanner_lines content))
  end.

(** The loop of [getGatewayDhcpcd] over the scanned lines. *)
Fixpoint scanDhcpcd (lines : list string) : result Addr :=
  match lines with
  | [] => Err (ErrorsNew "routers not found in dhcpcd output")
  | line :: rest =>
      let '(key, value, ok) := strings_Cut line "=" in
      if negb ok then scanDhcpcd rest
      else if String.eqb key "routers" then netip_ParseAddr value
      else scanDhcpcd rest
  end.

(** [getGatewayDhcpcd] *)
Definition getGatewayDhcpcd (iface : Interface) : M (result Addr) :=
  out <- Cmd_Output ["dhcpcd"; "-U"; Name iface] ;;
  match out with
  | Err e => ret (Err e)
  | Ok o => ret (scanDhcpcd (scanner_lines o))
  end.

(** [getGateway] *)
Definition getGateway (iface : Interface) : M (result Addr) :=
  if flagSystemdNetworkd fl then getGatewaySystemdNetworkd iface
  else if flagDhcpcd fl then getGatewayDhcpcd iface
  else ret (Err (ErrorsNew "unimplemented")).

(** [parseOrGetGateway]; [autodetect] is the code after the [if], which
    both ways out of the [if] fall through to. *)
Definition parseOrGetGateway (val : string) (iface : Interface) : M (result Addr) :=
  let autodetect : M (result Addr) :=
    gw <- getGateway iface ;;
    match gw with
    | Err e => ret (Err e)
    | Ok a =>
        log_Printf "autodetected gateway for %s: %v"
                   [AString (Name iface); AAddr a] ;;;
        ret (Ok a)
    end in
  if negb (String.eqb val EmptyString) then
    match netip_ParseAddr val with
    | Ok gw => ret (Ok gw)
    | Err _ => autodetect
    end
  else autodetect.
End Program.
End Part000.

(* ===================================================================== *)
(** ** What a run did at the route-mutation interface and elsewhere *)

Section Observations.
Context {P : Platform}.

(** A call into the route-mutation interface: what was asked for. *)
Inductive mutation : Type :=
| MDel (r : Route)
| MAdd (r : Route).

Definition mutation_of (e : event) : option mutation :=
  match e with
  | EvRouteDel r _ => Some (MDel r)
  | EvRouteAdd r _ => Some (MAdd r)
  | _ => None
  end.

(** The route mutations of a trace, in order. *)
Fixpoint mutations (t : list event) : list mutation :=
  match t with
  | [] => []
  | e :: t' =>
      match mutation_of e with
      | Some m => m :: mutations t'
      | None => mutations t'
      end
  end.

(** The events of the two autodetection backends: opening a lease file,
    running a command for its output. *)
Definition is_autodetection (e : event) : bool :=
  match e with
  | EvOpen _ _ | EvOutput _ _ => true
  | _ => false
  end.

(** The default route through a device and a gateway, as
    [switchDefaultRoute] builds it. *)
Definition default_route (dev : Interface) (gw : Addr) : Route :=
  {| Dst := defaultDst; LinkIndex := Index dev; Gw := Addr_AsSlice gw |}.

(** The route mutations of a switch from one default route to another. *)
Definition switch_mutations
    (oldDev : Interface) (oldGw : Addr) (newDev : Interface) (newGw : Addr)
  : list mutation :=
  [MDel (default_route oldDev oldGw); MAdd (default_route newDev newGw)].

(** The argument vector of the probe of [doCheckOnce]. *)
Definition ping_argv (fl : Main.Flags) (primary : Interface) : list string :=
  ["ping"; "-I"; Name primary; "-c1"; Main.flagCheckIP fl].

(** The flags with the dry-run flag set to [b]. *)
Definition with_dry_run (fl : Main.Flags) (b : bool) : Main.Flags :=
  {| Main.flagCheckIP := Main.flagCheckIP fl;
     Main.flagPrimaryInterface := Main.flagPrimaryInterface fl;
     Main.flagPrimaryGateway := Main.flagPrimaryGateway fl;
     Main.flagBackupInterface := Main.flagBackupInterface fl;
     Main.flagBackupGateway := Main.flagBackupGateway fl;
     Main.flagDryRun := b;
     Main.flagSystemdNetworkd := Main.flagSystemdNetworkd fl;
     Main.flagDhcpcd := Main.flagDhcpcd fl |}.

(** A run ends with an invocation of the route switcher: after some events
    without route mutation, the rest of the run is the run of
    [switchDefaultRoute oldDev oldGw newDev newGw]. *)
Definition ends_with_switch
    (r : option error * World * list event)
    (oldDev : Interface) (oldGw : Addr) (newDev : Interface) (newGw : Addr) : Prop :=
  exists (w : World) (pre : list event),
    mutations pre = [] /\
    r = (value (Main.switchDefaultRoute oldDev oldGw newDev newGw w),
         world (Main.switchDefaultRoute oldDev oldGw newDev newGw w),
         pre ++ events (Main.switchDefaultRoute oldDev oldGw newDev newGw w)).

(** Where a line stands for the lease-file scan: passed over (a comment,
    no separator, another key), or the line that carries the router. *)
Definition lease_line_skipped (line : string) : Prop :=
  strings_HasPrefix line "#" = true \/
  snd (strings_Cut line "=") = false \/
  fst (fst (strings_Cut line "=")) <> "ROUTER".

Definition lease_line_router (line value : string) : Prop :=
  strings_HasPrefix line "#" = false /\
  strings_Cut line "=" = ("ROUTER", value, true).

End Observations.

(* ===================================================================== *)
(** ** A deterministic host

    A small host on which the program can be run: a table of interfaces, the
    routes towards the probe destination (best first), the interfaces
    through which the probe gets an answer, whether the process may change
    routes, the lease files and the output of [dhcpcd] per interface.
    Addresses are dotted quads. *)

Module Fixture.

Record Host : Type := {
  ifaces : list Interface;
  table : list Route;
  reachable : list string;
  privileged : bool;
  files : list (string * string);
  dhcpcd : list (string * string)
}.

Definition Route_eq_dec (a b : Route) : {a = b} + {a <> b}.
Proof. repeat decide equality. Defined.

Definition set_table (h : Host) (t : list Route) : Host :=
  {| ifaces := ifaces h; table := t; reachable := reachable h;
     privileged := privileged h; files := files h; dhcpcd := dhcpcd h |}.

Definition EPERM : error := External "operation not permitted".
Definition ESRCH : error := External "no such process".
Definition EEXIST : error := External "file exists".
Definition ENOENT : error := External "no such file or directory".

Fixpoint assoc (k : string) (l : list (string * string)) : option string :=
  match l with
  | [] => None
  | (k', v) :: l' => if String.eqb k k' then Some v else assoc k l'
  end.

Definition host_RouteGet (_ : IP) (h : Host) : result (list Route) * Host :=
  (Ok (table h), h).

Definition host_RouteDel (r : Route) (h : Host) : option error * Host :=
  if negb (privileged h) then (Some EPERM, h)
  else if in_dec Route_eq_dec r (table h)
       then (None, set_table h (remove Route_eq_dec r (table h)))
       else (Some ESRCH, h).

Definition host_RouteAdd (r : Route) (h : Host) : option error * Host :=
  if negb (privileged h) then (Some EPERM, h)
  else if in_dec Route_eq_dec r (table h) then (Some EEXIST, h)
       else (None, set_table h (r :: table h)).

Definition host_InterfaceByIndex (idx : Z) (h : Host) : result Interface * Host :=
  match find (fun i => Z.eqb (Index i) idx) (ifaces h) with
  | Some i => (Ok i, h)
  | None => (Err (External "no such network interface"), h)
  end.

Definition host_Run (argv : list string) (h : Host) : option error * Host :=
  match argv with
  | [_; _; dev; _; _] =>
      if existsb (String.eqb dev) (reachable h) then (None, h)
      else (Some (External "exit status 1"), h)
  | _ => (Some (External "exit status 2"), h)
  end.

Definition host_Output (argv : list string) (h : Host) : result string * Host :=
  match argv with
  | [_; _; dev] =>
      match assoc dev (dhcpcd h) with
      | Some out => (Ok out, h)
      | None => (Err (External "exit status 1"), h)
      end
  | _ => (Err (External "exit status 2"), h)
  end.

Definition host_Open (path : string) (h : Host) : result string * Host :=
  match assoc path (files h) with
  | Some content => (Ok content, h)
  | None => (Err ENOENT, h)
  end.

(** The fields of a text between the occurrences of a separator. *)
Fixpoint fields (sep : ascii) (s : string) : list string :=
  match s with
  | EmptyString => [EmptyString]
  | String c s' =>
      if Ascii.eqb c sep then EmptyString :: fields sep s'
      else match fields sep s' with
           | [] => [String c EmptyString]
           | f :: fs => String c f :: fs
           end
  end.

(** A decimal field in [0, 255], without a leading zero. *)
Definition octet (s : string) : option Z :=
  match s with
  | EmptyString => None
  | String c rest =>
      if (Ascii.eqb c "0" && negb (String.eqb rest EmptyString))%bool then None
      else match NilEmpty.uint_of_string s with
           | Some u => let z := Z.of_uint u in
                       if (z <=? 255)%Z then Some z else None
           | None => None
           end
  end.

(** The addresses of this host are dotted quads. *)
Definition ParseAddr (s : string) : result IP :=
  match map octet (fields "." s) with
  | [Some a; Some b; Some c; Some d] => Ok [a; b; c; d]
  | _ => Err (External "unable to parse IP")
  end.

#[local] Instance host : Platform := {|
  World := Host;
  Addr := IP;
  netip_ParseAddr := ParseAddr;
  Addr_AsSlice := fun a => a;
  netlink_RouteGet := host_RouteGet;
  netlink_RouteDel := host_RouteDel;
  netlink_RouteAdd := host_RouteAdd;
  net_InterfaceByIndex := host_InterfaceByIndex;
  exec_Run := host_Run;
  exec_Output := host_Output;
  os_Open := host_Open
|}.

Definition eth0 : Interface := {| Index := 2; Name := "eth0" |}.
Definition wwan0 : Interface := {| Index := 3; Name := "wwan0" |}.
Definition gw_eth0 : IP := [192; 168; 1; 1]%Z.
Definition gw_wwan0 : IP := [10; 0; 0; 1]%Z.

Definition via (dev : Interface) (gw : IP) : Route :=
  {| Dst := defaultDst; LinkIndex := Index dev; Gw := gw |}.

Definition flags (dry : bool) : Main.Flags :=
  {| Main.flagCheckIP := "8.8.8.8";
     Main.flagPrimaryInterface := "eth0";
     Main.flagPrimaryGateway := "192.168.1.1";
     Main.flagBackupInterface := "wwan0";
     Main.flagBackupGateway := EmptyString;
     Main.flagDryRun := dry;
     Main.flagSystemdNetworkd := true;
     Main.flagDhcpcd := false |}.

Definition flags000 : Part000.Flags :=
  {| Part000.flagCheckIP := "8.8.8.8";
     Part000.flagPrimaryInterface := "eth0";
     Part000.flagPrimaryGateway := "192.168.1.1";
     Part000.flagBackupInterface := "wwan0";
     Part000.flagBackupGateway := EmptyString;
     Part000.flagSystemdNetworkd := true;
     Part000.flagDhcpcd := false |}.

Definition lease3 : string :=
  "# This is private data. Do not parse." ++ String LF
  "ADDRESS=10.0.0.17" ++ String LF
  "NETMASK" ++ String LF
  "ROUTER=10.0.0.1" ++ String LF
  "ROUTER=10.0.0.2" ++ String LF EmptyString.

Definition dump3 : string :=
  "ip_address=10.0.0.17" ++ String LF
  "routers=10.0.0.1" ++ String LF EmptyString.

(** A host whose default route is through [active]. *)
Definition a_host (active : Interface) (gw : IP) (up : list string) (root : bool) : Host :=
  {| ifaces := [{| Index := 1; Name := "lo" |}; eth0; wwan0];
     table := [via active gw];
     reachable := up;
     privileged := root;
     files := [("/run/systemd/netif/leases/3", lease3)];
     dhcpcd := [("wwan0", dump3)] |}.

(** Check cycles on this host, with [eth0] as primary and [wwan0] as backup. *)
Definition cycle : Type := (option error * @World host * list (@event host))%type.

Definition check (dry : bool) : M (P := host) (option error) :=
  Main.doCheckOnce (P := host) (flags dry) eth0 gw_eth0 wwan0 gw_wwan0.

(** The backup carries the default route and the primary answers again. *)
Definition primary_back : Host := a_host wwan0 gw_wwan0 ["eth0"; "wwan0"] true.
(** The primary carries the default route and answers. *)
Definition primary_fine : Host := a_host eth0 gw_eth0 ["eth0"; "wwan0"] true.
(** The primary carries the default route and is silent. *)
Definition primary_silent : Host := a_host eth0 gw_eth0 ["wwan0"] true.
(** The same, for a process that may not change routes. *)
Definition primary_silent_unprivileged : Host := a_host eth0 gw_eth0 ["wwan0"] false.

(** The first and the second cycle of a process that may not change
    routes, with the primary active and silent. *)
Definition refused1 : cycle :=
  check false primary_silent_unprivileged.
Definition refused2 : cycle :=
  check false (world refused1).

(** The first, second and third cycle of a process that may change routes,
    with the primary active and silent at first. *)
Definition failover1 : cycle := check false primary_silent.
Definition failover2 : cycle := check false (world failover1).
Definition failover3 : cycle := check false (world failover2).

(** One tick of the main loop. *)
Definition one_tick : M (P := host) unit :=
  Main.tick (P := host) (flags false) eth0 gw_eth0 wwan0 gw_wwan0.

End Fixture.

(* ===================================================================== *)
(** ** The process: [func main] of the two files

    [main] also looks interfaces up by name and ends the process with
    [log.Fatalf]; its events are the boundary events of the functions it
    calls and these two.  The [select] statement of the main loop receives
    what the context and the ticker deliver; the loop is run over the
    sequence of what [select] receives. *)

(** [net.InterfaceByName] *)
Class Registry {P : Platform} : Type := {
  net_InterfaceByName : string -> World -> result Interface * World
}.

(** What one [select] of the main loop receives: [<-ctx.Done()] or
    [<-ticker.C]. *)
Inductive select_case : Type :=
| CtxDone
| TickerC.

(** How far a run of [main] got: [log.Fatalf] ended the process
    ([os.Exit(1)]), [time.NewTicker] panicked, [main] returned, or [main]
    waits in [select]. *)
Inductive ended : Type :=
| Exit1
| Panicked
| Returned
| Selecting.

Section Process.
Context {P : Platform} {R : Registry}.

Inductive main_event : Type :=
| Boundary (e : event)
| EvInterfaceByName (name : string) (res : result Interface)
| EvFatalf (format : string) (args : list logarg).

Definition Proc (A : Type) : Type := World -> A * World * list main_event.

Definition pret {A : Type} (a : A) : Proc A := fun w => (a, w, []).

Definition pbind {A B : Type} (m : Proc A) (k : A -> Proc B) : Proc B :=
  fun w =>
    let '(a, w1, t1) := m w in
    let '(b, w2, t2) := k a w1 in
    (b, w2, t1 ++ t2).

(** A computation of the functions below [main], inside [main]. *)
Definition lift {A : Type} (m : M A) : Proc A :=
  fun w => let '(a, w1, t) := m w in (a, w1, map Boundary t).

Definition InterfaceByName (name : string) : Proc (result Interface) :=
  fun w => let '(r, w1) := net_InterfaceByName name w in
           (r, w1, [EvInterfaceByName name r]).

(** [log.Fatalf]: the line is logged and the process ends. *)
Definition log_Fatalf (format : string) (args : list logarg) : Proc ended :=
  fun w => (Exit1, w, [EvFatalf format args]).

(** The boundary events among the events of [main], in order. *)
Fixpoint boundary (t : list main_event) : list event :=
  match t with
  | [] => []
  | Boundary e :: t' => e :: boundary t'
  | _ :: t' => boundary t'
  end.

Definition pvalue {A : Type} (r : A * World * list main_event) : A := fst (fst r).
Definition pworld {A : Type} (r : A * World * list main_event) : World := snd (fst r).
Definition pevents {A : Type} (r : A * World * list main_event) : list main_event :=
  snd r.

End Process.

Notation "x <-- m ;; k" := (pbind m (fun x => k))
  (at level 100, m at next level, right associativity) : go_scope.
Notation "m ;;;; k" := (pbind m (fun _ => k))
  (at level 100, right associativity) : go_scope.

Module MainEntry.
Section Program.
Context {P : Platform} {R : Registry}.
Variable fl : Main.Flags.
(** The check-interval flag, a [time.Duration] in nanoseconds; only [main]
    reads it. *)
Variable flagCheckInterval : Z.
Local Open Scope go_scope.

(** The [mainLoop] of [main], over what its [select] receives. *)
Fixpoint mainLoop
    (primary : Interface) (primaryGw : Addr) (backup : Interface) (backupGw : Addr)
    (received : list select_case) : Proc ended :=
  match received with
  | [] => pret Selecting
  | CtxDone :: _ =>
      lift (log_Printf "finished" []) ;;;;
      pret Returned
  | TickerC :: rest =>
      lift (log_Printf "checking for internet status" []) ;;;;
      err <-- lift (Main.doCheckOnce fl primary primaryGw backup backupGw) ;;
      (match err with
       | Some e => lift (log_Printf "error checking: %v" [AError e])
       | None => pret tt
       end) ;;;;
      mainLoop primary primaryGw backup backupGw rest
  end.

(** [main] of [main.go]; [time.NewTicker] panics for an interval that is not
    positive. *)
Definition main (received : list select_case) : Proc ended :=
  if String.eqb (Main.flagPrimaryInterface fl) EmptyString then
    log_Fatalf "no primary interface provided" []
  else if String.eqb (Main.flagBackupInterface fl) EmptyString then
    log_Fatalf "no backup interface provided" []
  else
    p <-- InterfaceByName (Main.flagPrimaryInterface fl) ;;
    match p with
    | Err err =>
        log_Fatalf "error getting primary interface %q: %v"
                   [AString (Main.flagPrimaryInterface fl); AError err]
    | Ok primary =>
        b <-- InterfaceByName (Main.flagBackupInterface fl) ;;
        match b with
        | Err err =>
            log_Fatalf "error getting backup interface %q: %v"
                       [AString (Main.flagBackupInterface fl); AError err]
        | Ok backup =>
            pg <-- lift (Main.parseOrGetGateway fl (Main.flagPrimaryGateway fl) primary) ;;
            match pg with
            | Err err => log_Fatalf "error detecting primary gateway: %v" [AError err]
            | Ok primaryGw =>
                lift (log_Printf "primary gateway: %q" [AAddr primaryGw]) ;;;;
                bg <-- lift (Main.parseOrGetGateway fl (Main.flagBackupGateway fl) backup) ;;
                match bg with
                | Err err => log_Fatalf "error detecting backup gateway: %v" [AError err]
                | Ok backupGw =>
                    lift (log_Printf "backup gateway: %q" [AAddr backupGw]) ;;;;
                    if (flagCheckInterval <=? 0)%Z then pret Panicked
                    else mainLoop primary primaryGw backup backupGw received
                end
            end
        end
    end.

End Program.
End MainEntry.

Module Part000Entry.
Section Program.
Context {P : Platform} {R : Registry}.
Variable fl : Part000.Flags.
Local Open Scope go_scope.

(** [main] of the second file: the same start, and no loop. *)
Definition main : Proc ended :=
  if String.eqb (Part000.flagPrimaryInterface fl) EmptyString then
    log_Fatalf "no primary interface provided" []
  else if String.eqb (Part000.flagBackupInterface fl) EmptyString then
    log_Fatalf "no backup interface provided" []
  else
    p <-- InterfaceByName (Part000.flagPrimaryInterface fl) ;;
    match p with
    | Err err =>
        log_Fatalf "error getting primary interface %q: %v"
                   [AString (Part000.flagPrimaryInterface fl); AError err]
    | Ok primary =>
        b <-- InterfaceByName (Part000.flagBackupInterface fl) ;;
        match b with
        | Err err =>
            log_Fatalf "error getting backup interface %q: %v"
                       [AString (Part000.flagBackupInterface fl); AError err]
        | Ok backup =>
            pg <-- lift (Part000.parseOrGetGateway fl (Part000.flagPrimaryGateway fl) primary) ;;
            match pg with
            | Err err => log_Fatalf "error detecting primary gateway: %v" [AError err]
            | Ok primaryGw =>
                lift (log_Printf "primary gateway: %q" [AAddr primaryGw]) ;;;;
                bg <-- lift (Part000.parseOrGetGateway fl (Part000.flagBackupGateway fl) backup) ;;
                match bg with
                | Err err => log_Fatalf "error detecting backup gateway: %v" [AError err]
                | Ok backupGw =>
                    lift (log_Printf "backup gateway: %q" [AAddr backupGw]) ;;;;
                    pret Returned
                end
            end
        end
    end.

End Program.
End Part000Entry.

(* ===================================================================== *)
(** ** More of what a run did *)

Section MoreObservations.
Context {P : Platform}.

(** The argument vectors of the commands run for their exit status, in
    order. *)
Fixpoint probes (t : list event) : list (list string) :=
  match t with
  | [] => []
  | EvRun argv _ :: t' => argv :: probes t'
  | _ :: t' => probes t'
  end.

(** The calls of [log.Printf], in order. *)
Fixpoint logged (t : list event) : list (string * list logarg) :=
  match t with
  | [] => []
  | EvLog format args :: t' => (format, args) :: logged t'
  | _ :: t' => logged t'
  end.

(** The calls of the two autodetection backends. *)
Definition autodetections (t : list event) : list event := filter is_autodetection t.

(** A read of the routing table or of the interface registry. *)
Definition is_inspection (e : event) : bool :=
  match e with
  | EvRouteGet _ _ | EvInterfaceByIndex _ _ => true
  | _ => false
  end.

(** The route of a mutation. *)
Definition mutation_route (m : mutation) : Route :=
  match m with
  | MDel r | MAdd r => r
  end.

(** A sequence of route mutations made of deletes that are each followed at
    once by an add. *)
Fixpoint paired (m : list mutation) : bool :=
  match m with
  | [] => true
  | MDel _ :: MAdd _ :: m' => paired m'
  | _ => false
  end.

(** The explicit gateway [parseOrGetGateway] accepts: the parse of a
    non-empty value that [netip.ParseAddr] accepts. *)
Definition explicit_gateway (val : string) : option Addr :=
  if negb (String.eqb val EmptyString) then
    match netip_ParseAddr val with
    | Ok gw => Some gw
    | Err _ => None
    end
  else None.

Definition is_RouteGet (e : event) : bool :=
  match e with
  | EvRouteGet _ _ => true
  | _ => false
  end.

Definition is_done (c : select_case) : bool :=
  match c with
  | CtxDone => true
  | TickerC => false
  end.

(** The ticks the main loop receives before the context is done. *)
Fixpoint ticks_before_done (received : list select_case) : nat :=
  match received with
  | TickerC :: rest => S (ticks_before_done rest)
  | _ => O
  end.

End MoreObservations.

Section ProcessObservations.
Context {P : Platform} {R : Registry}.

Definition is_fatal (e : main_event) : bool :=
  match e with
  | EvFatalf _ _ => true
  | _ => false
  end.

(** What the events before the loop, or before the fatal line, are not. *)
Definition startup_quiet (pre : list main_event) : Prop :=
  mutations (boundary pre) = [] /\
  probes (boundary pre) = [] /\
  filter is_inspection (boundary pre) = [] /\
  filter is_fatal pre = [] /\
  (length (autodetections (boundary pre)) <= 2)%nat.

End ProcessObservations.

(* ===================================================================== *)
(** ** The deterministic host, with its registry by name *)

Module FixtureEntry.
Import Fixture.

Definition host_InterfaceByName (name : string) (h : Host) : result Interface * Host :=
  match find (fun i => String.eqb (Name i) name) (ifaces h) with
  | Some i => (Ok i, h)
  | None => (Err (External "no such network interface"), h)
  end.

#[local] Instance registry : Registry (P := host) :=
  @Build_Registry host host_InterfaceByName.

(** [main] of [main.go] on this host. *)
Definition run_main (dry : bool) (received : list select_case) : Proc (P := host) ended :=
  MainEntry.main (P := host) (R := registry) (flags dry) 5000000000 received.

(** Flags that name no backend and give one gateway only. *)
Definition flags_unconfigured : Main.Flags :=
  {| Main.flagCheckIP := "8.8.8.8";
     Main.flagPrimaryInterface := "eth0";
     Main.flagPrimaryGateway := "192.168.1.1";
     Main.flagBackupInterface := "wwan0";
     Main.flagBackupGateway := EmptyString;
     Main.flagDryRun := false;
     Main.flagSystemdNetworkd := false;
     Main.flagDhcpcd := false |}.

(** Flags that name both backends. *)
Definition flags_both : Main.Flags :=
  {| Main.flagCheckIP := "8.8.8.8";
     Main.flagPrimaryInterface := "eth0";
     Main.flagPrimaryGateway := "192.168.1.1";
     Main.flagBackupInterface := "wwan0";
     Main.flagBackupGateway := EmptyString;
     Main.flagDryRun := false;
     Main.flagSystemdNetworkd := true;
     Main.flagDhcpcd := true |}.

(** Flags that name the [dhcpcd] backend. *)
Definition flags_dhcpcd : Main.Flags :=
  {| Main.flagCheckIP := "8.8.8.8";
     Main.flagPrimaryInterface := "eth0";
     Main.flagPrimaryGateway := "192.168.1.1";
     Main.flagBackupInterface := "wwan0";
     Main.flagBackupGateway := EmptyString;
     Main.flagDryRun := false;
     Main.flagSystemdNetworkd := false;
     Main.flagDhcpcd := true |}.

(** A host whose routing table is empty. *)
Definition no_route : Host := set_table primary_fine [].

(** The lease of interface 3 without the newline at its end. *)
Definition lease3_open : string :=
  "# This is private data. Do not parse." ++ String LF
  "ADDRESS=10.0.0.17" ++ String LF
  "NETMASK" ++ String LF
  "ROUTER=10.0.0.1" ++ String LF
  "ROUTER=10.0.0.2".

(** A host with one lease file, for interface 3, of the given content. *)
Definition lease_host (content : string) : Host :=
  {| ifaces := ifaces primary_fine; table := table primary_fine;
     reachable := reachable primary_fine; privileged := true;
     files := [("/run/systemd/netif/leases/3", content)];
     dhcpcd := dhcpcd primary_fine |}.

(** Another name for the interface of index 3. *)
Definition usb0 : Interface := {| Index := 3; Name := "usb0" |}.

Fixpoint repeat_char (c : ascii) (n : nat) : string :=
  match n with
  | O => EmptyString
  | S n' => String c (repeat_char c n')
  end.

(** A line of 65536 bytes, one more than the scanner's buffer takes. *)
Definition long_line : string := repeat_char "a" (N.to_nat MaxScanTokenSize).

(** A lease whose first line is that line and whose second line carries the
    router. *)
Definition long_lease : string := (long_line ++ String LF "ROUTER=10.0.0.1")%string.

End FixtureEntry.

(* ===================================================================== *)
(** ** The string functions do what their Go counterparts document *)

Lemma prefix_string_drop (sep s : string) :
  prefix sep s = true -> s = (sep ++ string_drop (String.length sep) s)%string.
Proof.
  revert s. induction sep as [|c sep IH]; intros s Hp; [reflexivity|].
  destruct s as [|c' s]; simpl in Hp; [discriminate|].
  destruct (Ascii.ascii_dec c c') as [->|]; [|discriminate].
  simpl. f_equal. apply IH. exact Hp.
Qed.

(** When [strings.Cut] finds the separator, the text is the part before,
    the separator and the part after. *)
Lemma strings_Cut_found (s sep before after : string) :
  strings_Cut s sep = (before, after, true) -> s = (before ++ sep ++ after)%string.
Proof.
  revert before after. induction s as [|c s IH]; intros before after H.
  - cbn [strings_Cut] in H. destruct (prefix sep EmptyString) eqn:Hp; [|discriminate].
    injection H as <- <-. apply (prefix_string_drop _ _ Hp).
  - cbn [strings_Cut] in H. destruct (prefix sep (String c s)) eqn:Hp.
    + injection H as <- <-. apply (prefix_string_drop _ _ Hp).
    + destruct (strings_Cut s sep) as [[b a] found]. destruct found; [|discriminate].
      injection H as <- <-. simpl. f_equal. apply IH. reflexivity.
Qed.

(** When it does not, the text comes back whole, with an empty rest. *)
Lemma strings_Cut_not_found (s sep before after : string) :
  strings_Cut s sep = (before, after, false) -> before = s /\ after = EmptyString.
Proof.
  destruct s as [|c s]; cbn [strings_Cut]; intros H.
  - destruct (prefix sep EmptyString); [discriminate|].
    injection H as <- <-. split; reflexivity.
  - destruct (prefix sep (String c s)); [discriminate|].
    destruct (strings_Cut s sep) as [[b a] found]. destruct found; [discriminate|].
    injection H as <- <-. split; reflexivity.
Qed.

Lemma take_while_all {A : Type} (p : A -> bool) (l : list A) :
  Forall (fun x => p x = true) l -> take_while p l = l.
Proof.
  induction 1 as [|x l Hx _ IH]; simpl; [reflexivity|].
  rewrite Hx, IH. reflexivity.
Qed.

(** When every line of a text fits the scanner's buffer, the scanned lines
    are all its lines. *)
Lemma scanner_lines_all (content : string) :
  Forall (fun l => fits_token l = true) (raw_lines content) ->
  scanner_lines content = map dropCR (raw_lines content).
Proof.
  intros H. unfold scanner_lines. rewrite (take_while_all _ H). reflexivity.
Qed.

Example strings_Cut_router :
  strings_Cut "ROUTER=10.0.0.1" "=" = ("ROUTER", "10.0.0.1", true).
Proof. reflexivity. Qed.

Example strings_Cut_first_separator :
  strings_Cut "OPTION=a=b" "=" = ("OPTION", "a=b", true).
Proof. reflexivity. Qed.

Example scanner_lines_crlf :
  scanner_lines ("a=1" ++ String CR (String LF (String LF "b=2")))%string =
  ["a=1"; EmptyString; "b=2"].
Proof. reflexivity. Qed.

Example scanner_lines_lease3 :
  scanner_lines Fixture.lease3 =
  ["# This is private data. Do not parse."; "ADDRESS=10.0.0.17"; "NETMASK";
   "ROUTER=10.0.0.1"; "ROUTER=10.0.0.2"].
Proof. reflexivity. Qed.

(* ===================================================================== *)
(** ** Runs of the program, step by step *)

Section Runs.
Context {P : Platform}.

Lemma events_run {A : Type} (a : A) (w : World) (t : list event) :
  events (a, w, t) = t.
Proof. reflexivity. Qed.

Lemma mutations_app (t1 t2 : list event) :
  mutations (t1 ++ t2) = mutations t1 ++ mutations t2.
Proof.
  induction t1 as [|e t1 IH]; simpl; [reflexivity|].
  destruct (mutation_of e); simpl; rewrite IH; reflexivity.
Qed.

(** The run of the route switcher, call by call. *)
Lemma switchDefaultRoute_run oldDev oldGw newDev newGw (w : World) :
  Main.switchDefaultRoute oldDev oldGw newDev newGw w =
  (fst (netlink_RouteAdd (default_route newDev newGw)
          (snd (netlink_RouteDel (default_route oldDev oldGw) w))),
   snd (netlink_RouteAdd (default_route newDev newGw)
          (snd (netlink_RouteDel (default_route oldDev oldGw) w))),
   EvRouteDel (default_route oldDev oldGw)
              (fst (netlink_RouteDel (default_route oldDev oldGw) w))
   :: match fst (netlink_RouteDel (default_route oldDev oldGw) w) with
      | Some e => [EvLog "error removing old default route: %v" [AError e]]
      | None => []
      end
   ++ [EvRouteAdd (default_route newDev newGw)
         (fst (netlink_RouteAdd (default_route newDev newGw)
                 (snd (netlink_RouteDel (default_route oldDev oldGw) w))))]).
Proof.
  unfold Main.switchDefaultRoute, bind, RouteDel, RouteAdd, call, log_Printf, ret,
    default_route.
  destruct (netlink_RouteDel _ w) as [rd w1]; simpl.
  destruct rd as [e|]; simpl;
    destruct (netlink_RouteAdd _ w1) as [ra w2]; reflexivity.
Qed.

Lemma switchDefaultRoute_mutations oldDev oldGw newDev newGw (w : World) :
  mutations (events (Main.switchDefaultRoute oldDev oldGw newDev newGw w)) =
  [MDel (default_route oldDev oldGw); MAdd (default_route newDev newGw)].
Proof.
  rewrite switchDefaultRoute_run. unfold events; simpl.
  destruct (fst (netlink_RouteDel _ w)); reflexivity.
Qed.

(** The route inspector changes no route. *)
Lemma getDefaultRouteInterface_mutations (w : World) :
  mutations (events (Main.getDefaultRouteInterface w)) = [].
Proof.
  unfold Main.getDefaultRouteInterface, bind, RouteGet, InterfaceByIndex, call, ret.
  destruct (netlink_RouteGet _ w) as [[[|r0 rest]|e] w1]; simpl; try reflexivity.
  destruct (net_InterfaceByIndex _ w1) as [[i|e] w2]; reflexivity.
Qed.

(** One check cycle after a successful inspection, by the outcome of the
    probe and the name the inspector returned. *)
Lemma doCheckOnce_run fl primary primaryGw backup backupGw
      (w w1 w2 : World) cur ti perr :
  Main.getDefaultRouteInterface w = (Ok cur, w1, ti) ->
  exec_Run (ping_argv fl primary) w1 = (perr, w2) ->
  Main.doCheckOnce fl primary primaryGw backup backupGw w =
  match perr with
  | None =>
      if String.eqb cur (Name backup) then
        let pre := ti ++ [EvRun (ping_argv fl primary) perr;
                          EvLog "primary interface up; switching from backup -> primary" []] in
        if negb (Main.flagDryRun fl) then
          (value (Main.switchDefaultRoute backup backupGw primary primaryGw w2),
           world (Main.switchDefaultRoute backup backupGw primary primaryGw w2),
           pre ++ events (Main.switchDefaultRoute backup backupGw primary primaryGw w2))
        else (None, w2, pre)
      else (None, w2, ti ++ [EvRun (ping_argv fl primary) perr;
                             EvLog "on primary interface; doing nothing" []])
  | Some _ =>
      if String.eqb cur (Name primary) then
        let pre := ti ++ [EvRun (ping_argv fl primary) perr;
                          EvLog "primary interface down; switching from primary -> backup" []] in
        if negb (Main.flagDryRun fl) then
          (value (Main.switchDefaultRoute primary primaryGw backup backupGw w2),
           world (Main.switchDefaultRoute primary primaryGw backup backupGw w2),
           pre ++ events (Main.switchDefaultRoute primary primaryGw backup backupGw w2))
        else (None, w2, pre)
      else (None, w2, ti ++ [EvRun (ping_argv fl primary) perr;
                             EvLog "on backup interface; doing nothing" []])
  end.
Proof.
  intros Hi Hp.
  unfold Main.doCheckOnce, bind. rewrite Hi.
  unfold Cmd_Run, call. fold (ping_argv fl primary). rewrite Hp.
  unfold log_Printf, ret, value, world, events.
  destruct perr as [pe|].
  - destruct (String.eqb cur (Name primary)); simpl.
    + destruct (Main.flagDryRun fl); simpl.
      * rewrite ?app_nil_r. reflexivity.
      * destruct (Main.switchDefaultRoute primary primaryGw backup backupGw w2)
          as [[v w3] t3]. simpl. rewrite <- app_assoc. reflexivity.
    + rewrite ?app_nil_r. reflexivity.
  - destruct (String.eqb cur (Name backup)); simpl.
    + destruct (Main.flagDryRun fl); simpl.
      * rewrite ?app_nil_r. reflexivity.
      * destruct (Main.switchDefaultRoute backup backupGw primary primaryGw w2)
          as [[v w3] t3]. simpl. rewrite <- app_assoc. reflexivity.
    + rewrite ?app_nil_r. reflexivity.
Qed.

(** A cycle whose inspection fails stops there. *)
Lemma doCheckOnce_inspection_failed fl primary primaryGw backup backupGw
      (w w1 : World) e ti :
  Main.getDefaultRouteInterface w = (Err e, w1, ti) ->
  Main.doCheckOnce fl primary primaryGw backup backupGw w = (Some e, w1, ti ++ []).
Proof.
  intros Hi. unfold Main.doCheckOnce, bind. rewrite Hi. reflexivity.
Qed.

End Runs.

(* ===================================================================== *)
(** ** The route switcher and the route inspector *)

Section SwitcherInspector.
Context {P : Platform}.

(** C2.  Every invocation of the route switcher first attempts the delete of
    the old default route and then attempts the add of the new one, whatever
    the delete returned: these two are its route mutations, in this order.
    A failure of the delete is logged and does not reach the caller; what
    the switcher returns is what the add returned, so a failure of the add
    is returned to the caller. *)
Theorem switchDefaultRoute_delete_then_add
    (oldDev : Interface) (oldGw : Addr) (newDev : Interface) (newGw : Addr)
    (w : World) :
  let del := netlink_RouteDel (default_route oldDev oldGw) w in
  let add := netlink_RouteAdd (default_route newDev newGw) (snd del) in
  let r := Main.switchDefaultRoute oldDev oldGw newDev newGw w in
  mutations (events r) =
    [MDel (default_route oldDev oldGw); MAdd (default_route newDev newGw)] /\
  events r =
    EvRouteDel (default_route oldDev oldGw) (fst del)
    :: match fst del with
       | Some e => [EvLog "error removing old default route: %v" [AError e]]
       | None => []
       end
    ++ [EvRouteAdd (default_route newDev newGw) (fst add)] /\
  value r = fst add /\
  world r = snd add.
Proof.
  cbv zeta. split; [apply switchDefaultRoute_mutations|].
  rewrite switchDefaultRoute_run. repeat split.
Qed.


End SwitcherInspector.

(* ===================================================================== *)
(** ** The gateway resolver *)

Section Resolver.
Context {P : Platform}.

Lemma eqb_empty_false (val : string) :
  val <> EmptyString -> String.eqb val EmptyString = false.
Proof. intros H. apply String.eqb_neq. exact H. Qed.

(** C4.  For a non-empty explicit gateway string that [netip.ParseAddr]
    accepts, the gateway resolver returns the parsed address, leaves the host
    as it was and makes no boundary call at all: no lease file is opened and
    no command is run. *)
Theorem parseOrGetGateway_explicit
    (fl : Main.Flags) (val : string) (iface : Interface) (gw : Addr) (w : World) :
  val <> EmptyString ->
  netip_ParseAddr val = Ok gw ->
  Main.parseOrGetGateway fl val iface w = (Ok gw, w, []) /\
  existsb is_autodetection (events (Main.parseOrGetGateway fl val iface w)) = false.
Proof.
  intros Hne Hparse.
  assert (E : Main.parseOrGetGateway fl val iface w = (Ok gw, w, [])).
  { unfold Main.parseOrGetGateway.
    rewrite (eqb_empty_false Hne), Hparse. reflexivity. }
  split; [exact E|]. rewrite E. reflexivity.
Qed.

(** The run of the autodetection path: [getGateway], then the log line when
    it succeeded. *)
Lemma parseOrGetGateway_empty (fl : Main.Flags) (iface : Interface) (w : World) :
  Main.parseOrGetGateway fl EmptyString iface w =
  (value (Main.getGateway fl iface w),
   world (Main.getGateway fl iface w),
   events (Main.getGateway fl iface w)
   ++ match value (Main.getGateway fl iface w) with
      | Ok a => [EvLog "autodetected gateway for %s: %v"
                       [AString (Name iface); AAddr a]]
      | Err _ => []
      end).
Proof.
  unfold Main.parseOrGetGateway. simpl. unfold bind.
  destruct (Main.getGateway fl iface w) as [[[a|e] w1] t1]; reflexivity.
Qed.

(** C9.  For a non-empty explicit gateway string that [netip.ParseAddr]
    rejects, the gateway resolver runs exactly as with no explicit string:
    it returns what autodetection returns (its address, or its error, never
    the error of the rejected string), and logs nothing about the rejected
    string. *)
Theorem parseOrGetGateway_invalid_falls_through
    (fl : Main.Flags) (val : string) (iface : Interface) (e : error) (w : World) :
  val <> EmptyString ->
  netip_ParseAddr val = Err e ->
  let g := Main.getGateway fl iface w in
  let r := Main.parseOrGetGateway fl val iface w in
  r = Main.parseOrGetGateway fl EmptyString iface w /\
  value r = value g /\
  world r = world g /\
  events r = events g
             ++ match value g with
                | Ok a => [EvLog "autodetected gateway for %s: %v"
                                 [AString (Name iface); AAddr a]]
                | Err _ => []
                end.
Proof.
  intros Hne Hparse. cbv zeta.
  assert (E : Main.parseOrGetGateway fl val iface w =
              Main.parseOrGetGateway fl EmptyString iface w).
  { unfold Main.parseOrGetGateway.
    rewrite (eqb_empty_false Hne), Hparse. reflexivity. }
  split; [exact E|]. rewrite E, parseOrGetGateway_empty. repeat split.
Qed.

(** C10.  With the same values of the two backend flags, the four
    gateway-resolution functions of the second file return, on every
    argument and every host, the same result, the same host and the same
    events as the functions of these names in [main.go]. *)
Theorem part000_same_as_main
    (fl : Main.Flags) (fl0 : Part000.Flags) :
  Part000.flagSystemdNetworkd fl0 = Main.flagSystemdNetworkd fl ->
  Part000.flagDhcpcd fl0 = Main.flagDhcpcd fl ->
  forall (val : string) (iface : Interface) (w : World),
    Part000.parseOrGetGateway fl0 val iface w = Main.parseOrGetGateway fl val iface w /\
    Part000.getGateway fl0 iface w = Main.getGateway fl iface w /\
    Part000.getGatewaySystemdNetworkd iface w = Main.getGatewaySystemdNetworkd iface w /\
    Part000.getGatewayDhcpcd iface w = Main.getGatewayDhcpcd iface w.
Proof.
  intros Hs Hd val iface w.
  assert (G : Part000.getGateway fl0 iface = Main.getGateway fl iface).
  { unfold Part000.getGateway, Main.getGateway. rewrite Hs, Hd. reflexivity. }
  split; [|split; [rewrite G; reflexivity | split; reflexivity]].
  unfold Part000.parseOrGetGateway, Main.parseOrGetGateway. rewrite G. reflexivity.
Qed.

End Resolver.

(* ===================================================================== *)
(** ** The failover loop *)

Section FailoverLoop.
Context {P : Platform}.
Variable fl : Main.Flags.
Variables primary backup : Interface.
Variables primaryGw backupGw : Addr.

Let to_primary : list mutation := switch_mutations backup backupGw primary primaryGw.
Let to_backup : list mutation := switch_mutations primary primaryGw backup backupGw.

Lemma ends_with_switch_mutations r oldDev oldGw newDev newGw :
  ends_with_switch r oldDev oldGw newDev newGw ->
  mutations (events r) =
  [MDel (default_route oldDev oldGw); MAdd (default_route newDev newGw)].
Proof.
  intros (w & pre & Hpre & ->).
  rewrite events_run, mutations_app, Hpre, switchDefaultRoute_mutations. reflexivity.
Qed.

Lemma inspection_mutations (w w1 : World) res ti :
  Main.getDefaultRouteInterface w = (res, w1, ti) -> mutations ti = [].
Proof.
  intros Hi. pose proof (getDefaultRouteInterface_mutations w) as H.
  rewrite Hi in H. exact H.
Qed.

(** The route mutations of one cycle after a successful inspection. *)
Lemma doCheckOnce_mutations (w w1 w2 : World) cur ti perr :
  Main.getDefaultRouteInterface w = (Ok cur, w1, ti) ->
  exec_Run (ping_argv fl primary) w1 = (perr, w2) ->
  mutations (events (Main.doCheckOnce fl primary primaryGw backup backupGw w)) =
  if Main.flagDryRun fl then []
  else match perr with
       | None => if String.eqb cur (Name backup) then to_primary else []
       | Some _ => if String.eqb cur (Name primary) then to_backup else []
       end.
Proof.
  intros Hi Hp. rewrite (doCheckOnce_run _ _ _ _ _ _ Hi Hp).
  pose proof (inspection_mutations _ Hi) as Hti.
  destruct perr as [pe|];
    [destruct (String.eqb cur (Name primary)) | destruct (String.eqb cur (Name backup))];
    destruct (Main.flagDryRun fl); cbv zeta; simpl negb; cbv iota;
    rewrite events_run, ?mutations_app, ?Hti, ?switchDefaultRoute_mutations;
    reflexivity.
Qed.

(** C1.  In a check cycle whose route inspection succeeds, with dry-run
    disabled: when the probe succeeds and the inspector reports the backup
    interface, the cycle ends with the invocation of the route switcher from
    (backup, its gateway) to (primary, its gateway); when the probe fails and
    the inspector reports the primary interface, it ends with the invocation
    from (primary, its gateway) to (backup, its gateway); in every other
    case, also when the reported interface is neither of the two, the cycle
    issues no route mutation and returns no error.  Conversely, when the two
    default routes differ, each invocation happens only in its case. *)
Theorem doCheckOnce_switch_decision (w w1 w2 : World) cur ti perr :
  Main.getDefaultRouteInterface w = (Ok cur, w1, ti) ->
  exec_Run (ping_argv fl primary) w1 = (perr, w2) ->
  Main.flagDryRun fl = false ->
  let r := Main.doCheckOnce fl primary primaryGw backup backupGw w in
  let up := perr = None /\ cur = Name backup in
  let down := perr <> None /\ cur = Name primary in
  (up -> ends_with_switch r backup backupGw primary primaryGw) /\
  (down -> ends_with_switch r primary primaryGw backup backupGw) /\
  (~ up -> ~ down -> mutations (events r) = [] /\ value r = None) /\
  (default_route primary primaryGw <> default_route backup backupGw ->
   (ends_with_switch r backup backupGw primary primaryGw -> up) /\
   (ends_with_switch r primary primaryGw backup backupGw -> down)).
Proof.
  intros Hi Hp Hdry r up down.
  pose proof (doCheckOnce_run fl primary primaryGw backup backupGw _ Hi Hp) as Hrun.
  pose proof (doCheckOnce_mutations _ Hi Hp) as Hmut.
  pose proof (inspection_mutations _ Hi) as Hti.
  fold r in Hrun, Hmut. rewrite Hdry in Hrun, Hmut. simpl in Hrun.
  split; [|split; [|split]].
  - intros [-> ->]. rewrite String.eqb_refl in Hrun.
    exists w2, (ti ++ [EvRun (ping_argv fl primary) None;
                       EvLog "primary interface up; switching from backup -> primary" []]).
    split; [|exact Hrun]. rewrite mutations_app, Hti. reflexivity.
  - intros [Hperr ->]. destruct perr as [pe|]; [|congruence].
    rewrite String.eqb_refl in Hrun.
    exists w2, (ti ++ [EvRun (ping_argv fl primary) (Some pe);
                       EvLog "primary interface down; switching from primary -> backup" []]).
    split; [|exact Hrun]. rewrite mutations_app, Hti. reflexivity.
  - intros Hup Hdown. destruct perr as [pe|].
    + destruct (String.eqb_spec cur (Name primary)) as [E|E].
      * exfalso. apply Hdown. split; [discriminate | exact E].
      * rewrite Hmut, Hrun. split; reflexivity.
    + destruct (String.eqb_spec cur (Name backup)) as [E|E].
      * exfalso. apply Hup. split; [reflexivity | exact E].
      * rewrite Hmut, Hrun. split; reflexivity.
  - intros Hdiff. split; intros Hsw; apply ends_with_switch_mutations in Hsw;
      rewrite Hmut in Hsw; destruct perr as [pe|].
    + destruct (String.eqb cur (Name primary)); [|discriminate].
      exfalso. apply Hdiff. unfold to_backup, switch_mutations in Hsw. congruence.
    + destruct (String.eqb_spec cur (Name backup)) as [E|E]; [|discriminate].
      split; [reflexivity | exact E].
    + destruct (String.eqb_spec cur (Name primary)) as [E|E]; [|discriminate].
      split; [discriminate | exact E].
    + destruct (String.eqb cur (Name backup)); [|discriminate].
      exfalso. apply Hdiff. unfold to_primary, switch_mutations in Hsw. congruence.
Qed.

(** C8.  An error returned by a check cycle is the error of the route
    inspection, or the error an add of a route returned in this cycle.  The
    error of a failed probe is not returned: after a failed probe the cycle
    returns what the add of the backup route returned when the inspector
    reported the primary interface and dry-run is disabled, and no error
    otherwise. *)
Theorem doCheckOnce_probe_failure_not_returned (w : World) :
  let r := Main.doCheckOnce fl primary primaryGw backup backupGw w in
  (forall e, value r = Some e ->
     value (Main.getDefaultRouteInterface w) = Err e \/
     exists rt, In (EvRouteAdd rt (Some e)) (events r)) /\
  (forall cur w1 ti pe w2,
     Main.getDefaultRouteInterface w = (Ok cur, w1, ti) ->
     exec_Run (ping_argv fl primary) w1 = (Some pe, w2) ->
     value r =
     if (String.eqb cur (Name primary) && negb (Main.flagDryRun fl))%bool
     then fst (netlink_RouteAdd (default_route backup backupGw)
                 (snd (netlink_RouteDel (default_route primary primaryGw) w2)))
     else None).
Proof.
  intros r. split.
  - intros e Hr.
    destruct (Main.getDefaultRouteInterface w) as [[[cur|e0] w1] ti] eqn:Hi.
    + right. destruct (exec_Run (ping_argv fl primary) w1) as [perr w2] eqn:Hp.
      unfold r in *. rewrite (doCheckOnce_run _ _ _ _ _ _ Hi Hp) in *.
      destruct perr as [pe|];
        [destruct (String.eqb cur (Name primary)) |
         destruct (String.eqb cur (Name backup))];
        destruct (Main.flagDryRun fl); cbv zeta in *; simpl negb in *; cbv iota in *;
        try discriminate Hr;
        rewrite events_run; rewrite switchDefaultRoute_run in *;
        unfold value in Hr; simpl in Hr; rewrite events_run;
        eexists; rewrite Hr; apply in_or_app; right;
        right; apply in_or_app; right; left; reflexivity.
    + left. unfold r in Hr.
      rewrite (doCheckOnce_inspection_failed _ _ _ _ _ _ Hi) in Hr.
      unfold value in *; simpl in *. congruence.
  - intros cur w1 ti pe w2 Hi Hp. unfold r.
    rewrite (doCheckOnce_run _ _ _ _ _ _ Hi Hp).
    destruct (String.eqb cur (Name primary)); destruct (Main.flagDryRun fl);
      try reflexivity.
    cbv zeta; simpl. rewrite switchDefaultRoute_run. reflexivity.
Qed.

(** C7.  With the dry-run flag enabled a check cycle issues no route
    mutation.  The same cycle with the flag disabled is the dry-run cycle
    itself, or the dry-run cycle followed by one invocation of the route
    switcher: up to and including the line that logs the decision, the two
    do and log the same. *)
Theorem doCheckOnce_dry_run (w : World) :
  Main.flagDryRun fl = true ->
  let dry := Main.doCheckOnce fl primary primaryGw backup backupGw w in
  let normal :=
    Main.doCheckOnce (with_dry_run fl false) primary primaryGw backup backupGw w in
  mutations (events dry) = [] /\
  (normal = dry \/
   exists oldDev oldGw newDev newGw,
     normal =
     (value (Main.switchDefaultRoute oldDev oldGw newDev newGw (world dry)),
      world (Main.switchDefaultRoute oldDev oldGw newDev newGw (world dry)),
      events dry ++ events (Main.switchDefaultRoute oldDev oldGw newDev newGw (world dry)))).
Proof.
  intros Hdry dry normal.
  destruct (Main.getDefaultRouteInterface w) as [[[cur|e0] w1] ti] eqn:Hi.
  - destruct (exec_Run (ping_argv fl primary) w1) as [perr w2] eqn:Hp.
    assert (Hp' : exec_Run (ping_argv (with_dry_run fl false) primary) w1 = (perr, w2))
      by exact Hp.
    split.
    + unfold dry. rewrite (doCheckOnce_mutations _ Hi Hp), Hdry. reflexivity.
    + unfold dry, normal.
      rewrite (doCheckOnce_run fl _ _ _ _ _ Hi Hp).
      rewrite (doCheckOnce_run (with_dry_run fl false) _ _ _ _ _ Hi Hp').
      rewrite Hdry. change (ping_argv (with_dry_run fl false) primary)
        with (ping_argv fl primary).
      destruct perr as [pe|];
        [destruct (String.eqb cur (Name primary)) |
         destruct (String.eqb cur (Name backup))];
        cbv zeta; simpl negb; cbv iota; try (left; reflexivity); right.
      * exists primary, primaryGw, backup, backupGw. reflexivity.
      * exists backup, backupGw, primary, primaryGw. reflexivity.
  - unfold dry, normal.
    rewrite !(doCheckOnce_inspection_failed _ _ _ _ _ _ Hi), events_run, app_nil_r.
    split; [exact (inspection_mutations _ Hi) | left; reflexivity].
Qed.

(** C3, amended.  In two consecutive check cycles with the same probe outcome
    and the same inspected active route, the second cycle issues the route
    mutations of the first.  Across the two cycles no mutation is issued
    exactly when dry-run is enabled or probe and route agree: not (probe
    succeeded and backup active), and not (probe failed and primary
    active). *)
Theorem doCheckOnce_consecutive_cycles
    (w w1 w2 w1' w2' : World) cur ti ti' perr perr' :
  let c1 := Main.doCheckOnce fl primary primaryGw backup backupGw w in
  let c2 := Main.doCheckOnce fl primary primaryGw backup backupGw (world c1) in
  Main.getDefaultRouteInterface w = (Ok cur, w1, ti) ->
  exec_Run (ping_argv fl primary) w1 = (perr, w2) ->
  Main.getDefaultRouteInterface (world c1) = (Ok cur, w1', ti') ->
  exec_Run (ping_argv fl primary) w1' = (perr', w2') ->
  (perr = None <-> perr' = None) ->
  mutations (events c2) = mutations (events c1) /\
  (mutations (events c1 ++ events c2) = [] <->
   Main.flagDryRun fl = true \/
   (~ (perr = None /\ cur = Name backup) /\ ~ (perr <> None /\ cur = Name primary))).
Proof.
  intros c1 c2 Hi Hp Hi' Hp' Hsame.
  pose proof (doCheckOnce_mutations _ Hi Hp) as H1.
  pose proof (doCheckOnce_mutations _ Hi' Hp') as H2.
  fold c1 in H1. fold c2 in H2.
  assert (E : mutations (events c2) = mutations (events c1)).
  { rewrite H1, H2. destruct perr as [pe|], perr' as [pe'|]; try reflexivity.
    - destruct Hsame as [_ Hs]. discriminate (Hs eq_refl).
    - destruct Hsame as [Hs _]. discriminate (Hs eq_refl). }
  split; [exact E|].
  rewrite mutations_app, E, H1.
  destruct (Main.flagDryRun fl).
  - split; [left; reflexivity | reflexivity].
  - destruct perr as [pe|].
    + destruct (String.eqb_spec cur (Name primary)) as [Ec|Ec]; split.
      * discriminate.
      * intros [Hd|[_ Hn]]; [discriminate|].
        exfalso. apply Hn. split; [discriminate | exact Ec].
      * intros _. right. split; intros [Ha Hb]; [discriminate | contradiction].
      * reflexivity.
    + destruct (String.eqb_spec cur (Name backup)) as [Ec|Ec]; split.
      * discriminate.
      * intros [Hd|[Hn _]]; [discriminate|].
        exfalso. apply Hn. split; [reflexivity | exact Ec].
      * intros _. right. split; intros [Ha Hb]; [contradiction | congruence].
      * reflexivity.
Qed.

End FailoverLoop.

(* ===================================================================== *)
(** ** The lease-file backend *)

Section LeaseFile.
Context {P : Platform}.

Lemma scan_skipped_line (line : string) (rest : list string) :
  lease_line_skipped line ->
  Main.scanSystemdNetworkd (line :: rest) = Main.scanSystemdNetworkd rest.
Proof.
  intros Hs. simpl.
  destruct (strings_HasPrefix line "#") eqn:Hc; [reflexivity|].
  destruct (strings_Cut line "=") as [[key v] ok] eqn:Hcut.
  destruct ok; simpl; [|reflexivity].
  destruct (String.eqb_spec key "ROUTER") as [E|E]; [|reflexivity].
  destruct Hs as [Hs|[Hs|Hs]]; rewrite ?Hcut in Hs; simpl in Hs; congruence.
Qed.

Lemma scan_skipped_prefix (pre rest : list string) :
  Forall lease_line_skipped pre ->
  Main.scanSystemdNetworkd (pre ++ rest) = Main.scanSystemdNetworkd rest.
Proof.
  induction 1 as [|line pre Hline _ IH]; [reflexivity|].
  rewrite <- app_comm_cons, scan_skipped_line by exact Hline. exact IH.
Qed.

Lemma scan_router_line (line v : string) (post : list string) :
  lease_line_router line v ->
  Main.scanSystemdNetworkd (line :: post) = netip_ParseAddr v.
Proof.
  intros [Hc Hcut]. simpl. rewrite Hc, Hcut. reflexivity.
Qed.

(** Every line is passed over or carries the router. *)
Lemma lease_line_cases (line : string) :
  lease_line_skipped line \/ exists v, lease_line_router line v.
Proof.
  unfold lease_line_skipped, lease_line_router.
  destruct (strings_HasPrefix line "#"); [left; left; reflexivity|].
  destruct (strings_Cut line "=") as [[key v] ok].
  destruct ok; [|left; right; left; reflexivity].
  destruct (String.eqb_spec key "ROUTER") as [->|E].
  - right. exists v. split; reflexivity.
  - left. right. right. exact E.
Qed.

(** Every sequence of lines is passed over as a whole or has a first line
    that carries the router. *)
Lemma lease_lines_cases (lines : list string) :
  Forall lease_line_skipped lines \/
  exists pre line v post,
    lines = pre ++ line :: post /\
    Forall lease_line_skipped pre /\
    lease_line_router line v.
Proof.
  induction lines as [|l ls IH]; [left; constructor|].
  destruct (lease_line_cases l) as [Hs|[v Hr]].
  - destruct IH as [Hall|(pre & line & v & post & -> & Hpre & Hr)].
    + left. constructor; assumption.
    + right. exists (l :: pre), line, v, post.
      split; [reflexivity | split; [constructor; assumption | exact Hr]].
  - right. exists [], l, v, ls. split; [reflexivity | split; [constructor | exact Hr]].
Qed.

(** The run of the lease-file backend: one open, then the scan. *)
Lemma getGatewaySystemdNetworkd_run (iface : Interface) (w : World) :
  Main.getGatewaySystemdNetworkd iface w =
  (match fst (os_Open (filepath_Join "/run/systemd/netif/leases"
                         (strconv_Itoa (Index iface))) w) with
   | Ok content => Main.scanSystemdNetworkd (scanner_lines content)
   | Err e => Err e
   end,
   snd (os_Open (filepath_Join "/run/systemd/netif/leases"
                   (strconv_Itoa (Index iface))) w),
   [EvOpen (filepath_Join "/run/systemd/netif/leases" (strconv_Itoa (Index iface)))
           (fst (os_Open (filepath_Join "/run/systemd/netif/leases"
                            (strconv_Itoa (Index iface))) w))]).
Proof.
  unfold Main.getGatewaySystemdNetworkd, bind, Open, call, ret.
  destruct (os_Open _ w) as [[content|e] w1]; reflexivity.
Qed.

(** C5, amended.  The lease-file backend opens the lease file of the
    interface's index and does nothing else at the boundary.  If the open
    fails it fails with the error of the open.  Otherwise, for every content,
    it goes in order through the lines the scanner yields, which are the
    lines of the content up to the first line that does not fit the scanner's
    buffer of 65536 bytes: lines that start with '#', lines without '=' and
    lines with another key are passed over, and the value of the first
    scanned line whose key is ROUTER is returned through [netip.ParseAddr];
    if the scanned lines end without such a line it fails with the not-found
    error.  One of the two holds for every content. *)
Theorem getGatewaySystemdNetworkd_scan (iface : Interface) (w : World) :
  let path := filepath_Join "/run/systemd/netif/leases" (strconv_Itoa (Index iface)) in
  let r := Main.getGatewaySystemdNetworkd iface w in
  events r = [EvOpen path (fst (os_Open path w))] /\
  world r = snd (os_Open path w) /\
  (forall e, fst (os_Open path w) = Err e -> value r = Err e) /\
  (forall content, fst (os_Open path w) = Ok content ->
     (forall pre line v post,
        scanner_lines content = pre ++ line :: post ->
        Forall lease_line_skipped pre ->
        lease_line_router line v ->
        value r = netip_ParseAddr v) /\
     (Forall lease_line_skipped (scanner_lines content) ->
        value r = Err (ErrorsNew "ROUTER not found in lease file")) /\
     (Forall lease_line_skipped (scanner_lines content) \/
      exists pre line v post,
        scanner_lines content = pre ++ line :: post /\
        Forall lease_line_skipped pre /\
        lease_line_router line v)).
Proof.
  intros path r. unfold r. rewrite getGatewaySystemdNetworkd_run. fold path.
  rewrite events_run. unfold value, world; simpl.
  split; [reflexivity | split; [reflexivity | split]].
  - intros e He. rewrite He. reflexivity.
  - intros content Hc. rewrite Hc. split; [|split].
    + intros pre line v post Hl Hpre Hr.
      rewrite Hl, scan_skipped_prefix by exact Hpre.
      apply scan_router_line. exact Hr.
    + intros Hall. rewrite <- (app_nil_r (scanner_lines content)).
      rewrite scan_skipped_prefix by exact Hall. reflexivity.
    + apply lease_lines_cases.
Qed.

End LeaseFile.

(* ===================================================================== *)
(** ** Runs on the deterministic host *)

Import Fixture.

Lemma doCheckOnce_switch_decision_witness :
  Main.getDefaultRouteInterface (P := host) primary_back =
    (Ok "wwan0", primary_back,
     events (Main.getDefaultRouteInterface (P := host) primary_back)) /\
  host_Run (ping_argv (flags false) eth0) primary_back = (None, primary_back) /\
  ends_with_switch (P := host) (check false primary_back) wwan0 gw_wwan0 eth0 gw_eth0.
Proof.
  split; [reflexivity | split; [reflexivity|]].
  apply (proj1 (@doCheckOnce_switch_decision host (flags false) eth0 wwan0 gw_eth0 gw_wwan0
                  primary_back primary_back primary_back "wwan0" _ None
                  eq_refl eq_refl eq_refl)).
  split; reflexivity.
Defined.


Lemma parseOrGetGateway_explicit_witness :
  "192.168.1.1" <> EmptyString /\
  ParseAddr "192.168.1.1" = Ok gw_eth0 /\
  Main.parseOrGetGateway (P := host) (flags false) "192.168.1.1" eth0 primary_fine =
    (Ok gw_eth0, primary_fine, []).
Proof.
  split; [discriminate | split; [reflexivity|]].
  apply (@parseOrGetGateway_explicit host); [discriminate | reflexivity].
Defined.

Lemma parseOrGetGateway_invalid_falls_through_witness :
  ParseAddr "10.0.0.256" = Err (External "unable to parse IP") /\
  value (Main.parseOrGetGateway (P := host) (flags false) "10.0.0.256" wwan0 primary_fine) =
    Ok gw_wwan0.
Proof.
  split; [reflexivity|].
  rewrite (proj1 (proj2 (@parseOrGetGateway_invalid_falls_through host (flags false)
                           "10.0.0.256" wwan0 (External "unable to parse IP") primary_fine
                           ltac:(discriminate) eq_refl))).
  reflexivity.
Defined.

Lemma part000_same_as_main_witness :
  Part000.parseOrGetGateway (P := host) flags000 EmptyString wwan0 primary_fine =
  Main.parseOrGetGateway (P := host) (flags false) EmptyString wwan0 primary_fine.
Proof.
  apply (@part000_same_as_main host (flags false) flags000 eq_refl eq_refl).
Defined.

Lemma getGatewaySystemdNetworkd_scan_witness :
  host_Open "/run/systemd/netif/leases/3" primary_fine = (Ok lease3, primary_fine) /\
  scanner_lines lease3 =
    ["# This is private data. Do not parse."; "ADDRESS=10.0.0.17"; "NETMASK"]
    ++ "ROUTER=10.0.0.1" :: ["ROUTER=10.0.0.2"] /\
  value (Main.getGatewaySystemdNetworkd (P := host) wwan0 primary_fine) =
    ParseAddr "10.0.0.1".
Proof.
  split; [reflexivity | split; [reflexivity|]].
  apply (proj1 (proj2 (proj2 (proj2
           (@getGatewaySystemdNetworkd_scan host wwan0 primary_fine))) lease3 eq_refl)
           ["# This is private data. Do not parse."; "ADDRESS=10.0.0.17"; "NETMASK"]
           "ROUTER=10.0.0.1" "10.0.0.1" ["ROUTER=10.0.0.2"]).
  - reflexivity.
  - apply Forall_cons; [left; reflexivity|].
    apply Forall_cons; [right; right; discriminate|].
    apply Forall_cons; [right; left; reflexivity | apply Forall_nil].
  - split; reflexivity.
Defined.

Lemma doCheckOnce_dry_run_witness :
  Main.flagDryRun (flags true) = true /\
  mutations (events (check true primary_silent)) = [] /\
  In (EvLog "primary interface down; switching from primary -> backup" [])
     (events (check true primary_silent)).
Proof.
  split; [reflexivity | split].
  - apply (@doCheckOnce_dry_run host (flags true) eth0 wwan0 gw_eth0 gw_wwan0
             primary_silent eq_refl).
  - simpl. tauto.
Defined.

Lemma doCheckOnce_probe_failure_not_returned_witness :
  host_Run (ping_argv (flags false) eth0) primary_silent_unprivileged =
    (Some (External "exit status 1"), primary_silent_unprivileged) /\
  value (check false primary_silent_unprivileged) = Some EPERM /\
  value (check false primary_silent) = None.
Proof.
  unfold check. split; [reflexivity | split].
  - rewrite (proj2 (@doCheckOnce_probe_failure_not_returned host (flags false)
                      eth0 wwan0 gw_eth0 gw_wwan0 primary_silent_unprivileged)
               "eth0" primary_silent_unprivileged _ (External "exit status 1")
               primary_silent_unprivileged eq_refl eq_refl).
    reflexivity.
  - rewrite (proj2 (@doCheckOnce_probe_failure_not_returned host (flags false)
                      eth0 wwan0 gw_eth0 gw_wwan0 primary_silent)
               "eth0" primary_silent _ (External "exit status 1")
               primary_silent eq_refl eq_refl).
    reflexivity.
Defined.

(** C3 as the claim states it fails: a process that may not change routes
    finds the primary active and silent in two consecutive cycles, and
    attempts the switch to the backup in both. *)
Lemma idempotence_counterexample :
  value (Main.getDefaultRouteInterface (P := host) primary_silent_unprivileged) = Ok "eth0" /\
  value (Main.getDefaultRouteInterface (P := host) (world refused1)) = Ok "eth0" /\
  fst (host_Run (ping_argv (flags false) eth0) primary_silent_unprivileged) =
    Some (External "exit status 1") /\
  fst (host_Run (ping_argv (flags false) eth0) (world refused1)) =
    Some (External "exit status 1") /\
  mutations (events refused1 ++ events refused2) =
    [MDel (via eth0 gw_eth0); MAdd (via wwan0 gw_wwan0);
     MDel (via eth0 gw_eth0); MAdd (via wwan0 gw_wwan0)] /\
  mutations (events refused1 ++ events refused2) <> [].
Proof.
  repeat split; try reflexivity. discriminate.
Qed.

Lemma doCheckOnce_consecutive_cycles_witness :
  mutations (events failover1) = [MDel (via eth0 gw_eth0); MAdd (via wwan0 gw_wwan0)] /\
  value (Main.getDefaultRouteInterface (P := host) (world failover1)) = Ok "wwan0" /\
  value (Main.getDefaultRouteInterface (P := host) (world failover2)) = Ok "wwan0" /\
  mutations (events failover2) = [] /\
  mutations (events failover3) = mutations (events failover2).
Proof.
  split; [reflexivity | split; [reflexivity | split; [reflexivity | split; [reflexivity|]]]].
  apply (proj1 (@doCheckOnce_consecutive_cycles host (flags false) eth0 wwan0
                  gw_eth0 gw_wwan0
                  (world failover1) (world failover1) (world failover1)
                  (world failover1) (world failover1)
                  "wwan0" _ _
                  (Some (External "exit status 1")) (Some (External "exit status 1"))
                  eq_refl eq_refl eq_refl eq_refl (conj (fun H => H) (fun H => H)))).
Defined.

(** Three ticks of the main loop with the primary silent: the first tick
    switches to the backup, the other two change nothing. *)
Example three_ticks_one_switch :
  mutations (events (bind one_tick (fun _ => bind one_tick (fun _ => one_tick))
                       primary_silent)) =
  [MDel (via eth0 gw_eth0); MAdd (via wwan0 gw_wwan0)].
Proof. reflexivity. Qed.

(* ===================================================================== *)
(** ** More on the check cycle *)

Section CycleMore.
Context {P : Platform}.
Variable fl : Main.Flags.
Variables primary backup : Interface.
Variables primaryGw backupGw : Addr.

Lemma probes_app (t1 t2 : list event) : probes (t1 ++ t2) = probes t1 ++ probes t2.
Proof.
  induction t1 as [|e t1 IH]; simpl; [reflexivity|].
  destruct e; simpl; rewrite IH; reflexivity.
Qed.

Lemma logged_app (t1 t2 : list event) : logged (t1 ++ t2) = logged t1 ++ logged t2.
Proof.
  induction t1 as [|e t1 IH]; simpl; [reflexivity|].
  destruct e; simpl; rewrite IH; reflexivity.
Qed.

Lemma autodetections_app (t1 t2 : list event) :
  autodetections (t1 ++ t2) = autodetections t1 ++ autodetections t2.
Proof. apply filter_app. Qed.

(** A trace of reads of the routing table and the registry has no probe, no
    log line, no route mutation and no autodetection. *)
Lemma inspection_only (t : list event) :
  forallb is_inspection t = true ->
  probes t = [] /\ logged t = [] /\ mutations t = [] /\ autodetections t = [].
Proof.
  induction t as [|e t IH]; simpl; [repeat split|].
  intros H. apply andb_prop in H. destruct H as [He Ht].
  destruct (IH Ht) as (Hp & Hl & Hm & Ha).
  destruct e; simpl in He; try discriminate; simpl; repeat split; assumption.
Qed.

(** The route inspector asks for the route to 8.8.8.8 and then at most for
    one interface; it does nothing else. *)
Lemma getDefaultRouteInterface_events (w : World) :
  (exists res rest,
     events (Main.getDefaultRouteInterface w) = EvRouteGet (net_IPv4 8 8 8 8) res :: rest) /\
  forallb is_inspection (events (Main.getDefaultRouteInterface w)) = true.
Proof.
  unfold Main.getDefaultRouteInterface, bind, RouteGet, InterfaceByIndex, call, ret.
  destruct (netlink_RouteGet _ w) as [[[|r0 rest]|e] w1]; simpl.
  - split; [eexists; eexists; reflexivity | reflexivity].
  - destruct (net_InterfaceByIndex _ w1) as [[i|e] w2]; simpl;
      (split; [eexists; eexists; reflexivity | reflexivity]).
  - split; [eexists; eexists; reflexivity | reflexivity].
Qed.

Lemma inspection_events_only (w w1 : World) res ti :
  Main.getDefaultRouteInterface w = (res, w1, ti) ->
  probes ti = [] /\ logged ti = [] /\ mutations ti = [] /\ autodetections ti = [].
Proof.
  intros Hi. apply inspection_only.
  pose proof (proj2 (getDefaultRouteInterface_events w)) as H.
  rewrite Hi in H. exact H.
Qed.

(** X1.  A check cycle whose route inspection fails is that inspection and
    nothing more: it returns the inspection's error, and it runs no probe,
    logs nothing and issues no route mutation. *)
Theorem doCheckOnce_inspection_failure (w w1 : World) e ti :
  Main.getDefaultRouteInterface w = (Err e, w1, ti) ->
  let r := Main.doCheckOnce fl primary primaryGw backup backupGw w in
  r = (Some e, w1, ti) /\
  probes (events r) = [] /\
  logged (events r) = [] /\
  mutations (events r) = [].
Proof.
  intros Hi r. unfold r.
  rewrite (doCheckOnce_inspection_failed _ _ _ _ _ _ Hi), app_nil_r, events_run.
  destruct (inspection_events_only _ Hi) as (Hp & Hl & Hm & _).
  repeat split; assumption.
Qed.

(** X2.  Every check cycle starts by asking the kernel for the route to
    8.8.8.8, whatever address the check-ip flag names.  When the inspection
    succeeds the cycle runs exactly one probe: [ping] through the primary
    interface, once, to the address of the check-ip flag; nothing is ever
    probed through the backup. *)
Theorem doCheckOnce_probe_and_destination (w : World) :
  let r := Main.doCheckOnce fl primary primaryGw backup backupGw w in
  (exists res rest, events r = EvRouteGet (net_IPv4 8 8 8 8) res :: rest) /\
  (forall cur w1 ti,
     Main.getDefaultRouteInterface w = (Ok cur, w1, ti) ->
     probes (events r) = [["ping"; "-I"; Name primary; "-c1"; Main.flagCheckIP fl]]).
Proof.
  intros r. split.
  - destruct (proj1 (getDefaultRouteInterface_events w)) as (res & rest & Hev).
    destruct (Main.getDefaultRouteInterface w) as [[[cur|e0] w1] ti] eqn:Hi;
      rewrite events_run in Hev; subst ti.
    + destruct (exec_Run (ping_argv fl primary) w1) as [perr w2] eqn:Hp.
      unfold r. rewrite (doCheckOnce_run _ _ _ _ _ _ Hi Hp).
      destruct perr as [pe|];
        [destruct (String.eqb cur (Name primary)) |
         destruct (String.eqb cur (Name backup))];
        destruct (Main.flagDryRun fl); cbv zeta; simpl negb; cbv iota;
        rewrite events_run; simpl; eexists; eexists; reflexivity.
    + unfold r. rewrite (doCheckOnce_inspection_failed _ _ _ _ _ _ Hi), events_run.
      simpl. eexists; eexists; reflexivity.
  - intros cur w1 ti Hi.
    destruct (inspection_events_only _ Hi) as (Hpr & _).
    destruct (exec_Run (ping_argv fl primary) w1) as [perr w2] eqn:Hp.
    unfold r. rewrite (doCheckOnce_run _ _ _ _ _ _ Hi Hp).
    destruct perr as [pe|];
      [destruct (String.eqb cur (Name primary)) |
       destruct (String.eqb cur (Name backup))];
      destruct (Main.flagDryRun fl); cbv zeta; simpl negb; cbv iota;
      rewrite events_run, ?probes_app, ?switchDefaultRoute_run, ?events_run, Hpr;
      simpl; try reflexivity;
      match goal with
      | |- context [match ?x with Some _ => _ | None => _ end] => destruct x; reflexivity
      end.
Qed.

(** The route mutations of any check cycle. *)
Lemma doCheckOnce_mutations_cases (w : World) :
  let m := mutations (events (Main.doCheckOnce fl primary primaryGw backup backupGw w)) in
  m = [] \/
  m = switch_mutations backup backupGw primary primaryGw \/
  m = switch_mutations primary primaryGw backup backupGw.
Proof.
  cbv zeta.
  destruct (Main.getDefaultRouteInterface w) as [[[cur|e0] w1] ti] eqn:Hi.
  - destruct (exec_Run (ping_argv fl primary) w1) as [perr w2] eqn:Hp.
    rewrite (doCheckOnce_mutations _ _ _ _ _ _ Hi Hp).
    destruct (Main.flagDryRun fl); [left; reflexivity|].
    destruct perr as [pe|].
    + destruct (String.eqb cur (Name primary)); [right; right | left]; reflexivity.
    + destruct (String.eqb cur (Name backup)); [right; left | left]; reflexivity.
  - left. rewrite (doCheckOnce_inspection_failed _ _ _ _ _ _ Hi), app_nil_r, events_run.
    apply (inspection_events_only _ Hi).
Qed.

(** X3.  Whatever the host answers, the route mutations of a check cycle are
    none, or one delete followed by one add.  Every route the cycle deletes
    or adds is a default route (destination 0.0.0.0/0) through the primary
    or the backup interface with its gateway; no other route is touched, and
    no delete is issued without the add after it. *)
Theorem doCheckOnce_mutations_shape (w : World) :
  let m := mutations (events (Main.doCheckOnce fl primary primaryGw backup backupGw w)) in
  (m = [] \/ exists old new, m = [MDel old; MAdd new]) /\
  Forall (fun x =>
            mutation_route x = default_route primary primaryGw \/
            mutation_route x = default_route backup backupGw) m /\
  Forall (fun x => Dst (mutation_route x) = defaultDst) m.
Proof.
  cbv zeta.
  destruct (doCheckOnce_mutations_cases w) as [E|[E|E]]; rewrite E;
    unfold switch_mutations.
  - split; [left; reflexivity | split; constructor].
  - split; [right; eexists; eexists; reflexivity | split].
    + apply Forall_cons; [right; reflexivity|].
      apply Forall_cons; [left; reflexivity | apply Forall_nil].
    + repeat (apply Forall_cons; [reflexivity|]). apply Forall_nil.
  - split; [right; eexists; eexists; reflexivity | split].
    + apply Forall_cons; [left; reflexivity|].
      apply Forall_cons; [right; reflexivity | apply Forall_nil].
    + repeat (apply Forall_cons; [reflexivity|]). apply Forall_nil.
Qed.

Lemma switchDefaultRoute_autodetections oldDev oldGw newDev newGw (w : World) :
  autodetections (events (Main.switchDefaultRoute oldDev oldGw newDev newGw w)) = [].
Proof.
  rewrite switchDefaultRoute_run, events_run. simpl.
  destruct (fst (netlink_RouteDel _ w)); reflexivity.
Qed.

(** The check cycle consults no backend. *)
Lemma doCheckOnce_no_autodetection_lemma (w : World) :
  autodetections (events (Main.doCheckOnce fl primary primaryGw backup backupGw w)) = [].
Proof.
  destruct (Main.getDefaultRouteInterface w) as [[[cur|e0] w1] ti] eqn:Hi.
  - destruct (inspection_events_only _ Hi) as (_ & _ & _ & Ha).
    destruct (exec_Run (ping_argv fl primary) w1) as [perr w2] eqn:Hp.
    rewrite (doCheckOnce_run _ _ _ _ _ _ Hi Hp).
    destruct perr as [pe|];
      [destruct (String.eqb cur (Name primary)) |
       destruct (String.eqb cur (Name backup))];
      destruct (Main.flagDryRun fl); cbv zeta; simpl negb; cbv iota;
      rewrite events_run, ?autodetections_app, ?switchDefaultRoute_autodetections, Ha;
      reflexivity.
  - rewrite (doCheckOnce_inspection_failed _ _ _ _ _ _ Hi), app_nil_r, events_run.
    apply (inspection_events_only _ Hi).
Qed.

(** X4.  A check cycle never consults an autodetection backend: it opens no
    lease file and runs no command for its output.  The gateways it uses are
    the ones it was given. *)
Theorem doCheckOnce_no_autodetection (w : World) :
  autodetections (events (Main.doCheckOnce fl primary primaryGw backup backupGw w)) = [].
Proof.
  destruct (Main.getDefaultRouteInterface w) as [[[cur|e0] w1] ti] eqn:Hi.
  - destruct (inspection_events_only _ Hi) as (_ & _ & _ & Ha).
    destruct (exec_Run (ping_argv fl primary) w1) as [perr w2] eqn:Hp.
    rewrite (doCheckOnce_run _ _ _ _ _ _ Hi Hp).
    destruct perr as [pe|];
      [destruct (String.eqb cur (Name primary)) |
       destruct (String.eqb cur (Name backup))];
      destruct (Main.flagDryRun fl); cbv zeta; simpl negb; cbv iota;
      rewrite events_run, ?autodetections_app, ?switchDefaultRoute_autodetections, Ha;
      reflexivity.
  - rewrite (doCheckOnce_inspection_failed _ _ _ _ _ _ Hi), app_nil_r, events_run.
    apply (inspection_events_only _ Hi).
Qed.

(** X5.  With the dry-run flag enabled a check cycle returns an error exactly
    when the route inspection fails, and then that error: no other failure
    can come out of a dry-run cycle. *)
Theorem doCheckOnce_dry_run_error (w : World) (e : error) :
  Main.flagDryRun fl = true ->
  (value (Main.doCheckOnce fl primary primaryGw backup backupGw w) = Some e <->
   value (Main.getDefaultRouteInterface w) = Err e).
Proof.
  intros Hdry.
  destruct (Main.getDefaultRouteInterface w) as [[[cur|e0] w1] ti] eqn:Hi.
  - destruct (exec_Run (ping_argv fl primary) w1) as [perr w2] eqn:Hp.
    rewrite (doCheckOnce_run _ _ _ _ _ _ Hi Hp), Hdry.
    destruct perr as [pe|];
      [destruct (String.eqb cur (Name primary)) |
       destruct (String.eqb cur (Name backup))];
      unfold value; simpl; split; discriminate.
  - rewrite (doCheckOnce_inspection_failed _ _ _ _ _ _ Hi).
    unfold value; simpl. split; congruence.
Qed.

End CycleMore.

(* ===================================================================== *)
(** ** More on the gateway resolver *)

Section ResolverMore.
Context {P : Platform}.

Lemma cut_router_line (v : string) :
  strings_HasPrefix ("ROUTER=" ++ v) "#" = false /\
  strings_Cut ("ROUTER=" ++ v) "=" = ("ROUTER", v, true).
Proof. destruct v; split; reflexivity. Qed.

Lemma cut_routers_line (v : string) :
  strings_Cut ("routers=" ++ v) "=" = ("routers", v, true).
Proof. destruct v; reflexivity. Qed.

Lemma prefix_key_value (key v : string) :
  prefix (key ++ "=") (key ++ "=" ++ v) = true.
Proof.
  induction key as [|c key IH]; simpl.
  - destruct (Ascii.ascii_dec "=" "=") as [_|N]; [destruct v; reflexivity | congruence].
  - destruct (Ascii.ascii_dec c c) as [_|N]; [exact IH | congruence].
Qed.

(** The loop of the lease-file backend returns the parse of what follows
    [ROUTER=] on the first line that starts with [ROUTER=]. *)
Lemma scanSystemdNetworkd_find (lines : list string) :
  Main.scanSystemdNetworkd lines =
  match find (prefix "ROUTER=") lines with
  | Some line => netip_ParseAddr (string_drop 7 line)
  | None => Err (ErrorsNew "ROUTER not found in lease file")
  end.
Proof.
  induction lines as [|line rest IH]; [reflexivity|].
  cbn [find]. destruct (prefix "ROUTER=" line) eqn:Hp.
  - pose proof (prefix_string_drop _ _ Hp) as E. cbn [String.length] in E.
    rewrite E at 1. apply scan_router_line. split; apply cut_router_line.
  - rewrite <- IH. apply scan_skipped_line.
    destruct (lease_line_cases line) as [Hs|[v [_ Hc]]]; [exact Hs|].
    apply strings_Cut_found in Hc. rewrite Hc in Hp.
    change (prefix ("ROUTER" ++ "=") ("ROUTER" ++ "=" ++ v) = false) in Hp.
    rewrite prefix_key_value in Hp. discriminate.
Qed.

(** The loop of the [dhcpcd] backend, in the same way, for [routers=]. *)
Lemma scanDhcpcd_find (lines : list string) :
  Main.scanDhcpcd lines =
  match find (prefix "routers=") lines with
  | Some line => netip_ParseAddr (string_drop 8 line)
  | None => Err (ErrorsNew "routers not found in dhcpcd output")
  end.
Proof.
  induction lines as [|line rest IH]; [reflexivity|].
  cbn [find]. destruct (prefix "routers=" line) eqn:Hp.
  - pose proof (prefix_string_drop _ _ Hp) as E. cbn [String.length] in E.
    rewrite E at 1. cbn [Main.scanDhcpcd]. rewrite cut_routers_line. reflexivity.
  - rewrite <- IH. cbn [Main.scanDhcpcd].
    destruct (strings_Cut line "=") as [[key v] ok] eqn:Hc.
    destruct ok; [|reflexivity]. simpl negb. cbv iota.
    destruct (String.eqb_spec key "routers") as [->|N]; [|reflexivity].
    apply strings_Cut_found in Hc. rewrite Hc in Hp.
    change (prefix ("routers" ++ "=") ("routers" ++ "=" ++ v) = false) in Hp.
    rewrite prefix_key_value in Hp. discriminate.
Qed.

(** The run of the [dhcpcd] backend: one command, then the scan. *)
Lemma getGatewayDhcpcd_run (iface : Interface) (w : World) :
  Main.getGatewayDhcpcd iface w =
  (match fst (exec_Output ["dhcpcd"; "-U"; Name iface] w) with
   | Ok out => Main.scanDhcpcd (scanner_lines out)
   | Err e => Err e
   end,
   snd (exec_Output ["dhcpcd"; "-U"; Name iface] w),
   [EvOutput ["dhcpcd"; "-U"; Name iface]
             (fst (exec_Output ["dhcpcd"; "-U"; Name iface] w))]).
Proof.
  unfold Main.getGatewayDhcpcd, bind, Cmd_Output, call, ret.
  destruct (exec_Output _ w) as [[out|e] w1]; reflexivity.
Qed.

(** X6.  The lease-file backend returns the parse of the text that follows
    [ROUTER=] on the first scanned line that starts with [ROUTER=], and the
    not-found error when no scanned line starts so.  Key and value are taken
    as they stand (nothing is trimmed), and the check for comment lines
    never changes the result. *)
Theorem getGatewaySystemdNetworkd_first_router (iface : Interface) (w : World) :
  value (Main.getGatewaySystemdNetworkd iface w) =
  match fst (os_Open (filepath_Join "/run/systemd/netif/leases"
                        (strconv_Itoa (Index iface))) w) with
  | Err e => Err e
  | Ok content =>
      match find (prefix "ROUTER=") (scanner_lines content) with
      | Some line => netip_ParseAddr (string_drop 7 line)
      | None => Err (ErrorsNew "ROUTER not found in lease file")
      end
  end.
Proof.
  rewrite getGatewaySystemdNetworkd_run. unfold value; simpl.
  destruct (fst (os_Open _ w)); [apply scanSystemdNetworkd_find | reflexivity].
Qed.

(** X7.  The [dhcpcd] backend runs [dhcpcd -U <interface name>] once and does
    nothing else at the boundary.  If the command fails it returns the
    command's error, whatever was printed; otherwise it returns the parse of
    the text that follows [routers=] on the first output line that starts
    with [routers=], and the not-found error when no line starts so. *)
Theorem getGatewayDhcpcd_first_routers (iface : Interface) (w : World) :
  let out := exec_Output ["dhcpcd"; "-U"; Name iface] w in
  let r := Main.getGatewayDhcpcd iface w in
  events r = [EvOutput ["dhcpcd"; "-U"; Name iface] (fst out)] /\
  world r = snd out /\
  value r =
  match fst out with
  | Err e => Err e
  | Ok o =>
      match find (prefix "routers=") (scanner_lines o) with
      | Some line => netip_ParseAddr (string_drop 8 line)
      | None => Err (ErrorsNew "routers not found in dhcpcd output")
      end
  end.
Proof.
  cbv zeta. rewrite getGatewayDhcpcd_run, events_run. unfold value, world; simpl.
  repeat split.
  destruct (fst (exec_Output _ w)); [apply scanDhcpcd_find | reflexivity].
Qed.

End ResolverMore.

(* ===================================================================== *)
(** ** Edges of the two backends *)

Section BackendEdges.
Context {P : Platform}.

Lemma raw_lines_newline (c : string) :
  raw_lines (c ++ String LF EmptyString) = raw_lines c \/
  raw_lines (c ++ String LF EmptyString) = raw_lines c ++ [EmptyString].
Proof.
  induction c as [|a c IH]; [right; reflexivity|].
  cbn [String.append raw_lines].
  destruct (Ascii.eqb a LF).
  - destruct IH as [-> | ->]; [left | right]; reflexivity.
  - destruct IH as [-> | ->]; [left; reflexivity|].
    destruct (raw_lines c) as [|l ls]; [left | right]; reflexivity.
Qed.

Lemma take_while_snoc {A : Type} (p : A -> bool) (l : list A) (x : A) :
  take_while p (l ++ [x]) = take_while p l \/
  take_while p (l ++ [x]) = take_while p l ++ [x].
Proof.
  induction l as [|y l IH]; simpl.
  - destruct (p x); [right | left]; reflexivity.
  - destruct (p y); [|left; reflexivity].
    destruct IH as [-> | ->]; [left | right]; reflexivity.
Qed.

(** A newline at the end of a text adds no scanned line, or one empty
    line. *)
Lemma scanner_lines_newline (c : string) :
  scanner_lines (c ++ String LF EmptyString) = scanner_lines c \/
  scanner_lines (c ++ String LF EmptyString) = scanner_lines c ++ [EmptyString].
Proof.
  unfold scanner_lines. destruct (raw_lines_newline c) as [-> | ->]; [left; reflexivity|].
  destruct (take_while_snoc fits_token (raw_lines c) EmptyString) as [-> | ->];
    [left; reflexivity | right]. rewrite map_app. reflexivity.
Qed.

Lemma find_snoc_miss {A : Type} (p : A -> bool) (l : list A) (x : A) :
  p x = false -> find p (l ++ [x]) = find p l.
Proof.
  intros Hx. induction l as [|y l IH]; simpl; [rewrite Hx; reflexivity|].
  destruct (p y); [reflexivity | exact IH].
Qed.

Lemma find_scanner_lines_newline (key c : string) :
  prefix key EmptyString = false ->
  find (prefix key) (scanner_lines (c ++ String LF EmptyString)) =
  find (prefix key) (scanner_lines c).
Proof.
  intros Hk. destruct (scanner_lines_newline c) as [-> | ->]; [reflexivity|].
  apply find_snoc_miss. exact Hk.
Qed.

(** X8.  One more newline at the end of the lease file, or of the output of
    [dhcpcd], never changes what the backend returns: a last line is scanned
    whether or not a newline ends it, and a blank last line is passed
    over. *)
Theorem backends_ignore_final_newline (iface : Interface) (w w' : World) (c : string) :
  (fst (os_Open (filepath_Join "/run/systemd/netif/leases"
                   (strconv_Itoa (Index iface))) w) = Ok c ->
   fst (os_Open (filepath_Join "/run/systemd/netif/leases"
                   (strconv_Itoa (Index iface))) w') = Ok (c ++ String LF EmptyString)%string ->
   value (Main.getGatewaySystemdNetworkd iface w') =
   value (Main.getGatewaySystemdNetworkd iface w)) /\
  (fst (exec_Output ["dhcpcd"; "-U"; Name iface] w) = Ok c ->
   fst (exec_Output ["dhcpcd"; "-U"; Name iface] w') = Ok (c ++ String LF EmptyString)%string ->
   value (Main.getGatewayDhcpcd iface w') = value (Main.getGatewayDhcpcd iface w)).
Proof.
  split; intros H H'.
  - rewrite !getGatewaySystemdNetworkd_run. unfold value; simpl. rewrite H, H'.
    rewrite !scanSystemdNetworkd_find.
    rewrite find_scanner_lines_newline by reflexivity. reflexivity.
  - rewrite !getGatewayDhcpcd_run. unfold value; simpl. rewrite H, H'.
    rewrite !scanDhcpcd_find.
    rewrite find_scanner_lines_newline by reflexivity. reflexivity.
Qed.

Lemma to_int_not_nil (z : Z) :
  Z.to_int z <> Decimal.Pos Decimal.Nil /\ Z.to_int z <> Decimal.Neg Decimal.Nil.
Proof.
  destruct z as [|p|p]; simpl; split; try discriminate;
    intros [= H]; exact (DecimalPos.Unsigned.to_uint_nonnil p H).
Qed.

(** [strconv.Itoa] gives different integers different texts. *)
Lemma strconv_Itoa_inj (i j : Z) : strconv_Itoa i = strconv_Itoa j -> i = j.
Proof.
  unfold strconv_Itoa. intros H.
  apply (f_equal NilZero.int_of_string) in H.
  destruct (to_int_not_nil i) as [Hi1 Hi2]. destruct (to_int_not_nil j) as [Hj1 Hj2].
  rewrite !NilZero.isi in H by assumption.
  injection H as H. apply DecimalZ.to_int_inj. exact H.
Qed.

Lemma append_inj_r (a b c : string) : (a ++ b = a ++ c)%string -> b = c.
Proof.
  induction a as [|x a IH]; simpl; intros H; [exact H|].
  injection H as H. apply IH. exact H.
Qed.

(** X9.  The lease file the backend opens is determined by the kernel index
    of the interface and by nothing else, and two interfaces with different
    indexes never share a lease file: runs that open the same path are runs
    for the same index. *)
Theorem lease_file_per_index (i1 i2 : Interface) (w1 w2 : World) :
  (Index i1 = Index i2 ->
   Main.getGatewaySystemdNetworkd i1 w1 = Main.getGatewaySystemdNetworkd i2 w1) /\
  (forall p r1 r2,
     events (Main.getGatewaySystemdNetworkd i1 w1) = [EvOpen p r1] ->
     events (Main.getGatewaySystemdNetworkd i2 w2) = [EvOpen p r2] ->
     Index i1 = Index i2).
Proof.
  split.
  - intros E. rewrite !getGatewaySystemdNetworkd_run, E. reflexivity.
  - rewrite !getGatewaySystemdNetworkd_run, !events_run.
    intros p r1 r2 [= H1 _] [= H2 _]. rewrite <- H2 in H1.
    unfold filepath_Join in H1.
    apply append_inj_r in H1. apply append_inj_r in H1.
    apply strconv_Itoa_inj. exact H1.
Qed.

End BackendEdges.

(* ===================================================================== *)
(** ** What the gateway resolver does at the boundary *)

Section ResolverBoundary.
Context {P : Platform}.
Variable fl : Main.Flags.

(** The run of [getGateway], by the two backend flags. *)
Lemma getGateway_run (iface : Interface) (w : World) :
  Main.getGateway fl iface w =
  if Main.flagSystemdNetworkd fl then Main.getGatewaySystemdNetworkd iface w
  else if Main.flagDhcpcd fl then Main.getGatewayDhcpcd iface w
  else (Err (ErrorsNew "unimplemented"), w, []).
Proof.
  unfold Main.getGateway.
  destruct (Main.flagSystemdNetworkd fl); [reflexivity|].
  destruct (Main.flagDhcpcd fl); reflexivity.
Qed.

(** The run of [parseOrGetGateway], by the explicit gateway. *)
Lemma parseOrGetGateway_run (val : string) (iface : Interface) (w : World) :
  Main.parseOrGetGateway fl val iface w =
  match explicit_gateway val with
  | Some gw => (Ok gw, w, [])
  | None => Main.parseOrGetGateway fl EmptyString iface w
  end.
Proof.
  unfold explicit_gateway, Main.parseOrGetGateway.
  destruct (negb (String.eqb val EmptyString)); [|reflexivity].
  destruct (netip_ParseAddr val); reflexivity.
Qed.

(** The backend calls of the resolver. *)
Lemma parseOrGetGateway_autodetections (val : string) (iface : Interface) (w : World) :
  autodetections (events (Main.parseOrGetGateway fl val iface w)) =
  match explicit_gateway val with
  | Some _ => []
  | None =>
      if Main.flagSystemdNetworkd fl then
        [EvOpen (filepath_Join "/run/systemd/netif/leases" (strconv_Itoa (Index iface)))
                (fst (os_Open (filepath_Join "/run/systemd/netif/leases"
                                 (strconv_Itoa (Index iface))) w))]
      else if Main.flagDhcpcd fl then
        [EvOutput ["dhcpcd"; "-U"; Name iface]
                  (fst (exec_Output ["dhcpcd"; "-U"; Name iface] w))]
      else []
  end.
Proof.
  rewrite parseOrGetGateway_run.
  destruct (explicit_gateway val); [reflexivity|].
  rewrite parseOrGetGateway_empty, getGateway_run, events_run, autodetections_app.
  destruct (Main.flagSystemdNetworkd fl); [|destruct (Main.flagDhcpcd fl)].
  - rewrite getGatewaySystemdNetworkd_run, events_run. unfold value; simpl.
    destruct (match fst (os_Open _ w) with Ok _ => _ | Err _ => _ end); reflexivity.
  - rewrite getGatewayDhcpcd_run, events_run. unfold value; simpl.
    destruct (match fst (exec_Output _ w) with Ok _ => _ | Err _ => _ end); reflexivity.
  - reflexivity.
Qed.

(** X10.  Which backend the gateway resolver consults: none when the
    explicit value is accepted; otherwise the lease file when the
    systemd-networkd flag is set, also when the dhcpcd flag is set too;
    otherwise [dhcpcd] when its flag is set; otherwise none.  At most one
    backend is consulted, once. *)
Theorem parseOrGetGateway_backend_choice (val : string) (iface : Interface) (w : World) :
  autodetections (events (Main.parseOrGetGateway fl val iface w)) =
  match explicit_gateway val with
  | Some _ => []
  | None =>
      if Main.flagSystemdNetworkd fl then
        [EvOpen (filepath_Join "/run/systemd/netif/leases" (strconv_Itoa (Index iface)))
                (fst (os_Open (filepath_Join "/run/systemd/netif/leases"
                                 (strconv_Itoa (Index iface))) w))]
      else if Main.flagDhcpcd fl then
        [EvOutput ["dhcpcd"; "-U"; Name iface]
                  (fst (exec_Output ["dhcpcd"; "-U"; Name iface] w))]
      else []
  end.
Proof.
  rewrite parseOrGetGateway_run.
  destruct (explicit_gateway val); [reflexivity|].
  rewrite parseOrGetGateway_empty, getGateway_run, events_run, autodetections_app.
  destruct (Main.flagSystemdNetworkd fl); [|destruct (Main.flagDhcpcd fl)].
  - rewrite getGatewaySystemdNetworkd_run, events_run. unfold value; simpl.
    destruct (match fst (os_Open _ w) with Ok _ => _ | Err _ => _ end); reflexivity.
  - rewrite getGatewayDhcpcd_run, events_run. unfold value; simpl.
    destruct (match fst (exec_Output _ w) with Ok _ => _ | Err _ => _ end); reflexivity.
  - reflexivity.
Qed.

(** The events of the resolver, apart from its backend call and its log
    line, are none. *)
Lemma parseOrGetGateway_quiet (val : string) (iface : Interface) (w : World) :
  let r := Main.parseOrGetGateway fl val iface w in
  mutations (events r) = [] /\
  probes (events r) = [] /\
  filter is_inspection (events r) = [] /\
  logged (events r) =
    match explicit_gateway val, value r with
    | None, Ok a => [("autodetected gateway for %s: %v", [AString (Name iface); AAddr a])]
    | _, _ => []
    end.
Proof.
  cbv zeta. rewrite parseOrGetGateway_run.
  destruct (explicit_gateway val); [repeat split|].
  rewrite parseOrGetGateway_empty, getGateway_run.
  destruct (Main.flagSystemdNetworkd fl); [|destruct (Main.flagDhcpcd fl)].
  - rewrite getGatewaySystemdNetworkd_run, events_run. unfold value; simpl.
    destruct (match fst (os_Open _ w) with Ok _ => _ | Err _ => _ end); repeat split.
  - rewrite getGatewayDhcpcd_run, events_run. unfold value; simpl.
    destruct (match fst (exec_Output _ w) with Ok _ => _ | Err _ => _ end); repeat split.
  - repeat split.
Qed.

(** X11.  The gateway resolver only reads: it issues no route mutation, runs
    no probe and asks nothing of the routing table or the registry.  It logs
    one line, the autodetected gateway, exactly when it returns a gateway
    that came from a backend; an accepted explicit value and every failure
    are not logged by the resolver. *)
Theorem parseOrGetGateway_read_only (val : string) (iface : Interface) (w : World) :
  let r := Main.parseOrGetGateway fl val iface w in
  mutations (events r) = [] /\
  probes (events r) = [] /\
  filter is_inspection (events r) = [] /\
  logged (events r) =
    match explicit_gateway val, value r with
    | None, Ok a => [("autodetected gateway for %s: %v", [AString (Name iface); AAddr a])]
    | _, _ => []
    end.
Proof.
  cbv zeta. rewrite parseOrGetGateway_run.
  destruct (explicit_gateway val); [repeat split|].
  rewrite parseOrGetGateway_empty, getGateway_run.
  destruct (Main.flagSystemdNetworkd fl); [|destruct (Main.flagDhcpcd fl)].
  - rewrite getGatewaySystemdNetworkd_run, events_run. unfold value; simpl.
    destruct (match fst (os_Open _ w) with Ok _ => _ | Err _ => _ end); repeat split.
  - rewrite getGatewayDhcpcd_run, events_run. unfold value; simpl.
    destruct (match fst (exec_Output _ w) with Ok _ => _ | Err _ => _ end); repeat split.
  - repeat split.
Qed.

(** X12.  With neither backend flag set, a gateway that is not given by an
    accepted explicit value cannot be resolved: the resolver fails with the
    error [unimplemented], without any boundary call and without a log
    line. *)
Theorem parseOrGetGateway_unconfigured (val : string) (iface : Interface) (w : World) :
  Main.flagSystemdNetworkd fl = false ->
  Main.flagDhcpcd fl = false ->
  explicit_gateway val = None ->
  Main.parseOrGetGateway fl val iface w = (Err (ErrorsNew "unimplemented"), w, []).
Proof.
  intros Hs Hd He.
  rewrite parseOrGetGateway_run, He, parseOrGetGateway_empty, getGateway_run, Hs, Hd.
  reflexivity.
Qed.

End ResolverBoundary.

(* ===================================================================== *)
(** ** The main loop *)

Section MainLoop.
Context {P : Platform} {R : Registry}.
Variable fl : Main.Flags.
Variables primary backup : Interface.
Variables primaryGw backupGw : Addr.

Lemma pevents_run {A : Type} (a : A) (w : World) (t : list main_event) :
  pevents (a, w, t) = t.
Proof. reflexivity. Qed.


Lemma boundary_app (t1 t2 : list main_event) :
  boundary (t1 ++ t2) = boundary t1 ++ boundary t2.
Proof.
  induction t1 as [|e t1 IH]; simpl; [reflexivity|].
  destruct e; simpl; rewrite IH; reflexivity.
Qed.

Lemma boundary_map (t : list event) : boundary (map Boundary t) = t.
Proof. induction t as [|e t IH]; simpl; [|rewrite IH]; reflexivity. Qed.

Lemma fatal_map (t : list event) : filter is_fatal (map Boundary t) = [].
Proof. induction t as [|e t IH]; simpl; [reflexivity | exact IH]. Qed.

(** One tick of the loop: the line, the check cycle, the error line when the
    cycle returned an error, and then the rest of the loop. *)
Lemma mainLoop_tick (rest : list select_case) (w : World) :
  MainEntry.mainLoop fl primary primaryGw backup backupGw (TickerC :: rest) w =
  (pvalue (MainEntry.mainLoop fl primary primaryGw backup backupGw rest
             (world (Main.doCheckOnce fl primary primaryGw backup backupGw w))),
   pworld (MainEntry.mainLoop fl primary primaryGw backup backupGw rest
             (world (Main.doCheckOnce fl primary primaryGw backup backupGw w))),
   Boundary (EvLog "checking for internet status" [])
   :: map Boundary (events (Main.doCheckOnce fl primary primaryGw backup backupGw w))
   ++ match value (Main.doCheckOnce fl primary primaryGw backup backupGw w) with
      | Some e => [Boundary (EvLog "error checking: %v" [AError e])]
      | None => []
      end
   ++ pevents (MainEntry.mainLoop fl primary primaryGw backup backupGw rest
                 (world (Main.doCheckOnce fl primary primaryGw backup backupGw w)))).
Proof.
  cbn [MainEntry.mainLoop]. unfold pbind, lift, log_Printf, pret.
  destruct (Main.doCheckOnce fl primary primaryGw backup backupGw w) as [[err w1] t1].
  unfold value, world, events; simpl.
  destruct err as [e|]; simpl;
    destruct (MainEntry.mainLoop fl primary primaryGw backup backupGw rest w1)
      as [[v w2] t2]; simpl; rewrite <- ?app_assoc; reflexivity.
Qed.

(** The same tick is the function [tick] followed by the rest of the loop. *)
Lemma mainLoop_tick_is_tick (rest : list select_case) (w : World) :
  MainEntry.mainLoop fl primary primaryGw backup backupGw (TickerC :: rest) w =
  pbind (lift (Main.tick fl primary primaryGw backup backupGw))
        (fun _ => MainEntry.mainLoop fl primary primaryGw backup backupGw rest) w.
Proof.
  cbn [MainEntry.mainLoop]. unfold Main.tick, pbind, lift, bind, log_Printf, pret, ret.
  destruct (Main.doCheckOnce fl primary primaryGw backup backupGw w) as [[err w1] t1].
  destruct err as [e|]; simpl;
    destruct (MainEntry.mainLoop fl primary primaryGw backup backupGw rest w1)
      as [[v w2] t2]; simpl; rewrite ?map_app, <- ?app_assoc, ?app_nil_r; reflexivity.
Qed.


(** X13.  The main loop ends only when the context is done: over what its
    [select] receives, it has returned exactly when a done context was
    received, and otherwise it is waiting in [select].  No error of a check
    cycle ends the loop or the process. *)
Theorem mainLoop_ends_only_on_done (received : list select_case) (w : World) :
  pvalue (MainEntry.mainLoop fl primary primaryGw backup backupGw received w) =
  if existsb is_done received then Returned else Selecting.
Proof.
  revert w. induction received as [|c rest IH]; intros w; [reflexivity|].
  destruct c.
  - reflexivity.
  - rewrite mainLoop_tick. unfold pvalue at 1; simpl. apply IH.
Qed.

Lemma doCheckOnce_one_RouteGet (w : World) :
  length (filter is_RouteGet
            (events (Main.doCheckOnce fl primary primaryGw backup backupGw w))) = 1%nat.
Proof.
  assert (Hin : forall w0, length (filter is_RouteGet
                                     (events (Main.getDefaultRouteInterface w0))) = 1%nat).
  { intros w0.
    unfold Main.getDefaultRouteInterface, bind, RouteGet, InterfaceByIndex, call, ret.
    destruct (netlink_RouteGet _ w0) as [[[|r0 rest]|e] w1]; simpl; try reflexivity.
    destruct (net_InterfaceByIndex _ w1) as [[i|e] w2]; reflexivity. }
  specialize (Hin w).
  destruct (Main.getDefaultRouteInterface w) as [[[cur|e0] w1] ti] eqn:Hi;
    rewrite events_run in Hin.
  - destruct (exec_Run (ping_argv fl primary) w1) as [perr w2] eqn:Hp.
    rewrite (doCheckOnce_run _ _ _ _ _ _ Hi Hp).
    destruct perr as [pe|];
      [destruct (String.eqb cur (Name primary)) |
       destruct (String.eqb cur (Name backup))];
      destruct (Main.flagDryRun fl); cbv zeta; simpl negb; cbv iota;
      rewrite events_run, ?switchDefaultRoute_run, ?events_run, !filter_app, !length_app,
        Hin; simpl; try reflexivity;
      match goal with
      | |- context [match ?x with Some _ => _ | None => _ end] => destruct x; reflexivity
      end.
  - rewrite (doCheckOnce_inspection_failed _ _ _ _ _ _ Hi), app_nil_r, events_run.
    exact Hin.
Qed.

(** X14.  The main loop inspects the routing table once for every tick it
    receives before the context is done, and never after: the number of its
    route queries is the number of those ticks.  What [select] receives
    after a done context is not acted upon. *)
Theorem mainLoop_one_inspection_per_tick (received : list select_case) (w : World) :
  length (filter is_RouteGet
            (boundary (pevents (MainEntry.mainLoop fl primary primaryGw backup backupGw
                                  received w)))) =
  ticks_before_done received.
Proof.
  revert w. induction received as [|c rest IH]; intros w; [reflexivity|].
  destruct c; [reflexivity|].
  rewrite mainLoop_tick, pevents_run. cbn [boundary ticks_before_done].
  rewrite !boundary_app, boundary_map. cbn [filter is_RouteGet].
  rewrite !filter_app, !length_app, doCheckOnce_one_RouteGet, IH.
  destruct (value (Main.doCheckOnce fl primary primaryGw backup backupGw w)); reflexivity.
Qed.

(** The loop ends no process and consults no backend. *)
Lemma mainLoop_quiet (received : list select_case) (w : World) :
  filter is_fatal (pevents (MainEntry.mainLoop fl primary primaryGw backup backupGw
                              received w)) = [] /\
  autodetections (boundary (pevents (MainEntry.mainLoop fl primary primaryGw backup backupGw
                                       received w))) = [].
Proof.
  revert w. induction received as [|c rest IH]; intros w; [split; reflexivity|].
  destruct c; [split; reflexivity|].
  rewrite mainLoop_tick, pevents_run. destruct (IH (world (Main.doCheckOnce fl primary
    primaryGw backup backupGw w))) as [IHf IHa].
  split.
  - cbn [filter is_fatal]. rewrite !filter_app, fatal_map, IHf.
    destruct (value (Main.doCheckOnce fl primary primaryGw backup backupGw w)); reflexivity.
  - cbn [boundary]. rewrite !boundary_app, boundary_map.
    change (autodetections (?a :: ?t)) with (filter is_autodetection (a :: t)).
    cbn [filter is_autodetection].
    fold (autodetections
            (events (Main.doCheckOnce fl primary primaryGw backup backupGw w) ++
             boundary match value (Main.doCheckOnce fl primary primaryGw backup backupGw w) with
                      | Some e => [Boundary (EvLog "error checking: %v" [AError e])]
                      | None => []
                      end ++
             boundary (pevents (MainEntry.mainLoop fl primary primaryGw backup backupGw rest
                          (world (Main.doCheckOnce fl primary primaryGw backup backupGw w)))))).
    rewrite !autodetections_app, doCheckOnce_no_autodetection_lemma, IHa.
    destruct (value (Main.doCheckOnce fl primary primaryGw backup backupGw w)); reflexivity.
Qed.

End MainLoop.

(* ===================================================================== *)
(** ** The start of the process *)

Section Startup.
Context {P : Platform} {R : Registry}.
Variable fl : Main.Flags.
Variable interval : Z.

Lemma resolver_facts (val : string) (iface : Interface) (w w' : World) a t :
  Main.parseOrGetGateway fl val iface w = (a, w', t) ->
  mutations t = [] /\ probes t = [] /\ filter is_inspection t = [] /\
  (length (autodetections t) <= 1)%nat.
Proof.
  intros H.
  pose proof (parseOrGetGateway_quiet fl val iface w) as Q. cbv zeta in Q.
  pose proof (parseOrGetGateway_autodetections fl val iface w) as A.
  rewrite H, !events_run in *. destruct Q as (Qm & Qp & Qi & _).
  repeat split; try assumption. rewrite A.
  destruct (explicit_gateway val); [simpl; lia|].
  destruct (Main.flagSystemdNetworkd fl); [simpl; lia|].
  destruct (Main.flagDhcpcd fl); simpl; lia.
Qed.

(** A run of [main] ends with a fatal line after a quiet start, or with the
    panic of the ticker after a quiet start, or is a quiet start followed by
    the main loop on the interfaces and gateways that the start resolved. *)
Lemma main_cases (received : list select_case) (w : World) :
  (exists w' pre format args,
     MainEntry.main fl interval received w = (Exit1, w', pre ++ [EvFatalf format args]) /\
     startup_quiet pre) \/
  (exists w' pre,
     MainEntry.main fl interval received w = (Panicked, w', pre) /\
     startup_quiet pre /\ (interval <= 0)%Z) \/
  (exists primary primaryGw backup backupGw w' pre,
     (0 < interval)%Z /\
     MainEntry.main fl interval received w =
     (pvalue (MainEntry.mainLoop fl primary primaryGw backup backupGw received w'),
      pworld (MainEntry.mainLoop fl primary primaryGw backup backupGw received w'),
      pre ++ pevents (MainEntry.mainLoop fl primary primaryGw backup backupGw received w')) /\
     startup_quiet pre).
Proof.
  unfold MainEntry.main.
  destruct (String.eqb (Main.flagPrimaryInterface fl) EmptyString).
  { left. exists w, [], "no primary interface provided", [].
    split; [reflexivity | repeat split; simpl; lia]. }
  destruct (String.eqb (Main.flagBackupInterface fl) EmptyString).
  { left. exists w, [], "no backup interface provided", [].
    split; [reflexivity | repeat split; simpl; lia]. }
  unfold pbind, InterfaceByName, log_Fatalf.
  destruct (net_InterfaceByName (Main.flagPrimaryInterface fl) w) as [[primary|e1] w1].
  2:{ left. exists w1, [EvInterfaceByName (Main.flagPrimaryInterface fl) (Err e1)].
      eexists; eexists. split; [reflexivity | repeat split; simpl; lia]. }
  destruct (net_InterfaceByName (Main.flagBackupInterface fl) w1) as [[backup|e2] w2].
  2:{ left. exists w2, [EvInterfaceByName (Main.flagPrimaryInterface fl) (Ok primary);
                        EvInterfaceByName (Main.flagBackupInterface fl) (Err e2)].
      eexists; eexists. split; [reflexivity | repeat split; simpl; lia]. }
  unfold lift.
  destruct (Main.parseOrGetGateway fl (Main.flagPrimaryGateway fl) primary w2)
    as [[[primaryGw|e3] w3] t3] eqn:H3;
    destruct (resolver_facts _ _ _ H3) as (M3 & P3 & I3 & A3).
  2:{ left. exists w3, ([EvInterfaceByName (Main.flagPrimaryInterface fl) (Ok primary);
                         EvInterfaceByName (Main.flagBackupInterface fl) (Ok backup)]
                        ++ map Boundary t3).
      eexists; eexists. split; [simpl; reflexivity|].
      unfold startup_quiet.
      rewrite ?boundary_app, ?boundary_map; cbn [boundary].
      rewrite ?filter_app, ?fatal_map, ?mutations_app, ?probes_app, ?autodetections_app,
        ?M3, ?P3, ?I3.
      repeat split; try reflexivity. rewrite ?length_app. simpl. lia. }
  unfold log_Printf.
  destruct (Main.parseOrGetGateway fl (Main.flagBackupGateway fl) backup w3)
    as [[[backupGw|e4] w4] t4] eqn:H4;
    destruct (resolver_facts _ _ _ H4) as (M4 & P4 & I4 & A4).
  - right.
    assert (Q : startup_quiet
                  ([EvInterfaceByName (Main.flagPrimaryInterface fl) (Ok primary);
                    EvInterfaceByName (Main.flagBackupInterface fl) (Ok backup)]
                   ++ map Boundary t3
                   ++ [Boundary (EvLog "primary gateway: %q" [AAddr primaryGw])]
                   ++ map Boundary t4
                   ++ [Boundary (EvLog "backup gateway: %q" [AAddr backupGw])])).
    { unfold startup_quiet.
      rewrite ?boundary_app, ?boundary_map; cbn [boundary].
      rewrite ?filter_app, ?fatal_map, ?mutations_app, ?probes_app, ?autodetections_app,
        ?M3, ?M4, ?P3, ?P4, ?I3, ?I4.
      repeat split; try reflexivity. rewrite ?length_app. simpl. lia. }
    destruct (Z.leb_spec interval 0) as [Hle|Hlt].
    + left. eexists; eexists. split; [|split; [exact Q | exact Hle]].
      unfold pret. simpl. rewrite <- ?app_assoc; simpl; rewrite <- ?app_assoc; simpl.
      rewrite ?app_nil_r. reflexivity.
    + right. exists primary, primaryGw, backup, backupGw, w4. eexists.
      split; [exact Hlt | split; [|exact Q]].
      destruct (MainEntry.mainLoop fl primary primaryGw backup backupGw received w4)
        as [[v w5] t5]. unfold pvalue, pworld, pevents; simpl.
      rewrite <- ?app_assoc; simpl; rewrite <- ?app_assoc; simpl. reflexivity.
  - left. exists w4.
    exists ([EvInterfaceByName (Main.flagPrimaryInterface fl) (Ok primary);
             EvInterfaceByName (Main.flagBackupInterface fl) (Ok backup)]
            ++ map Boundary t3
            ++ [Boundary (EvLog "primary gateway: %q" [AAddr primaryGw])]
            ++ map Boundary t4).
    eexists; eexists. split.
    + simpl. rewrite <- ?app_assoc; simpl; rewrite <- ?app_assoc; simpl. reflexivity.
    + unfold startup_quiet.
      rewrite ?boundary_app, ?boundary_map; cbn [boundary].
      rewrite ?filter_app, ?fatal_map, ?mutations_app, ?probes_app, ?autodetections_app,
        ?M3, ?M4, ?P3, ?P4, ?I3, ?I4.
      repeat split; try reflexivity. rewrite ?length_app. simpl. lia.
Qed.


(** X16.  However long the loop runs, a run of [main] consults the
    autodetection backends at most twice: at most once for each of the two
    gateways, before the loop.  The loop never resolves a gateway again. *)
Theorem main_resolves_gateways_once (received : list select_case) (w : World) :
  (length (autodetections (boundary (pevents (MainEntry.main fl interval received w)))) <= 2)%nat.
Proof.
  destruct (main_cases received w)
    as [(w' & pre & format & args & -> & Q) |
        [(w' & pre & -> & Q & _) |
         (primary & primaryGw & backup & backupGw & w' & pre & _ & -> & Q)]];
    destruct Q as (_ & _ & _ & _ & Qa); rewrite pevents_run;
    rewrite ?boundary_app, ?autodetections_app, ?length_app.
  - simpl. lia.
  - exact Qa.
  - rewrite (proj2 (mainLoop_quiet _ _ _ _ _ _ _)). simpl. lia.
Qed.

Lemma doCheckOnce_dry_mutations primary primaryGw backup backupGw (w : World) :
  Main.flagDryRun fl = true ->
  mutations (events (Main.doCheckOnce fl primary primaryGw backup backupGw w)) = [].
Proof.
  intros Hdry.
  destruct (Main.getDefaultRouteInterface w) as [[[cur|e0] w1] ti] eqn:Hi.
  - destruct (exec_Run (ping_argv fl primary) w1) as [perr w2] eqn:Hp.
    rewrite (doCheckOnce_mutations _ _ _ _ _ _ Hi Hp), Hdry. reflexivity.
  - rewrite (doCheckOnce_inspection_failed _ _ _ _ _ _ Hi), app_nil_r, events_run.
    apply (inspection_events_only _ Hi).
Qed.

Lemma mainLoop_dry_mutations primary primaryGw backup backupGw
      (received : list select_case) (w : World) :
  Main.flagDryRun fl = true ->
  mutations (boundary (pevents (MainEntry.mainLoop fl primary primaryGw backup backupGw
                                  received w))) = [].
Proof.
  intros Hdry. revert w. induction received as [|c rest IH]; intros w; [reflexivity|].
  destruct c; [reflexivity|].
  rewrite mainLoop_tick, pevents_run. cbn [boundary].
  rewrite !boundary_app, boundary_map. cbn [mutations mutation_of].
  rewrite !mutations_app, doCheckOnce_dry_mutations, IH by exact Hdry.
  destruct (value (Main.doCheckOnce fl primary primaryGw backup backupGw w)); reflexivity.
Qed.

(** X17.  With the dry-run flag set, a run of [main] never issues a route
    mutation: not at its start, and in no tick of the loop, whatever the host
    answers and however long the loop runs. *)
Theorem main_dry_run_never_mutates (received : list select_case) (w : World) :
  Main.flagDryRun fl = true ->
  mutations (boundary (pevents (MainEntry.main fl interval received w))) = [].
Proof.
  intros Hdry.
  destruct (main_cases received w)
    as [(w' & pre & format & args & -> & Q) |
        [(w' & pre & -> & Q & _) |
         (primary & primaryGw & backup & backupGw & w' & pre & _ & -> & Q)]];
    destruct Q as (Qm & _); rewrite pevents_run;
    rewrite ?boundary_app, ?mutations_app, Qm.
  - reflexivity.
  - reflexivity.
  - apply mainLoop_dry_mutations. exact Hdry.
Qed.

Lemma part000_parse_eq (fl0 : Part000.Flags) (val : string) (iface : Interface) (w : World) :
  Part000.flagSystemdNetworkd fl0 = Main.flagSystemdNetworkd fl ->
  Part000.flagDhcpcd fl0 = Main.flagDhcpcd fl ->
  Part000.parseOrGetGateway fl0 val iface w = Main.parseOrGetGateway fl val iface w.
Proof.
  intros Hs Hd. unfold Part000.parseOrGetGateway, Main.parseOrGetGateway,
    Part000.getGateway, Main.getGateway. rewrite Hs, Hd. reflexivity.
Qed.

(** X18.  With the same flags, [main] of the second file is the start of
    [main] of [main.go]: it ends the process in the same cases with the same
    fatal line, makes the same calls in the same order and leaves the same
    host; where it returns, [main] of [main.go] starts its ticker and enters
    its loop. *)
Theorem part000_main_is_the_start (fl0 : Part000.Flags) (w : World) :
  Part000.flagPrimaryInterface fl0 = Main.flagPrimaryInterface fl ->
  Part000.flagBackupInterface fl0 = Main.flagBackupInterface fl ->
  Part000.flagPrimaryGateway fl0 = Main.flagPrimaryGateway fl ->
  Part000.flagBackupGateway fl0 = Main.flagBackupGateway fl ->
  Part000.flagSystemdNetworkd fl0 = Main.flagSystemdNetworkd fl ->
  Part000.flagDhcpcd fl0 = Main.flagDhcpcd fl ->
  MainEntry.main fl interval [] w =
  (match pvalue (Part000Entry.main fl0 w) with
   | Returned => if (interval <=? 0)%Z then Panicked else Selecting
   | v => v
   end,
   pworld (Part000Entry.main fl0 w),
   pevents (Part000Entry.main fl0 w)).
Proof.
  intros Hp Hb Hpg Hbg Hs Hd.
  unfold MainEntry.main, Part000Entry.main. rewrite Hp, Hb, Hpg, Hbg.
  destruct (String.eqb (Main.flagPrimaryInterface fl) EmptyString); [reflexivity|].
  destruct (String.eqb (Main.flagBackupInterface fl) EmptyString); [reflexivity|].
  unfold pbind, InterfaceByName, log_Fatalf, lift, log_Printf, pret.
  destruct (net_InterfaceByName (Main.flagPrimaryInterface fl) w) as [[primary|e1] w1];
    [|reflexivity].
  destruct (net_InterfaceByName (Main.flagBackupInterface fl) w1) as [[backup|e2] w2];
    [|reflexivity].
  rewrite (part000_parse_eq fl0 _ _ _ Hs Hd).
  destruct (Main.parseOrGetGateway fl (Main.flagPrimaryGateway fl) primary w2)
    as [[[primaryGw|e3] w3] t3]; [|reflexivity].
  rewrite (part000_parse_eq fl0 _ _ _ Hs Hd).
  destruct (Main.parseOrGetGateway fl (Main.flagBackupGateway fl) backup w3)
    as [[[backupGw|e4] w4] t4]; [|reflexivity].
  destruct (interval <=? 0)%Z; reflexivity.
Qed.

(** X21.  With a check interval that is not positive the process never
    reaches its loop: when the start does not end it with a fatal line, the
    process ends by the panic of the ticker, after both gateways were
    resolved, and whatever [select] would receive is not acted upon. *)
Theorem main_interval_not_positive (received : list select_case) (w : World) :
  (interval <= 0)%Z ->
  let r := MainEntry.main fl interval received w in
  (pvalue r = Exit1 \/ pvalue r = Panicked) /\
  r = MainEntry.main fl interval [] w.
Proof.
  intros Hle. cbv zeta. unfold MainEntry.main.
  destruct (String.eqb (Main.flagPrimaryInterface fl) EmptyString);
    [split; [left|]; reflexivity|].
  destruct (String.eqb (Main.flagBackupInterface fl) EmptyString);
    [split; [left|]; reflexivity|].
  unfold pbind, InterfaceByName, log_Fatalf, lift, log_Printf, pret.
  destruct (net_InterfaceByName (Main.flagPrimaryInterface fl) w) as [[primary|e1] w1];
    [|split; [left|]; reflexivity].
  destruct (net_InterfaceByName (Main.flagBackupInterface fl) w1) as [[backup|e2] w2];
    [|split; [left|]; reflexivity].
  destruct (Main.parseOrGetGateway fl (Main.flagPrimaryGateway fl) primary w2)
    as [[[primaryGw|e3] w3] t3]; [|split; [left|]; reflexivity].
  destruct (Main.parseOrGetGateway fl (Main.flagBackupGateway fl) backup w3)
    as [[[backupGw|e4] w4] t4]; [|split; [left|]; reflexivity].
  destruct (Z.leb_spec interval 0) as [_|Hlt]; [|lia].
  split; [right|]; reflexivity.
Qed.

End Startup.

(* ===================================================================== *)
(** ** Whole runs *)

Section WholeRun.
Context {P : Platform} {R : Registry}.
Variable fl : Main.Flags.
Variable interval : Z.

Lemma doCheckOnce_probes primary primaryGw backup backupGw (w : World) :
  probes (events (Main.doCheckOnce fl primary primaryGw backup backupGw w)) = [] \/
  probes (events (Main.doCheckOnce fl primary primaryGw backup backupGw w)) =
    [ping_argv fl primary].
Proof.
  destruct (Main.getDefaultRouteInterface w) as [[[cur|e0] w1] ti] eqn:Hi.
  - right. destruct (inspection_events_only _ Hi) as (Hpr & _).
    destruct (exec_Run (ping_argv fl primary) w1) as [perr w2] eqn:Hp.
    rewrite (doCheckOnce_run _ _ _ _ _ _ Hi Hp).
    destruct perr as [pe|];
      [destruct (String.eqb cur (Name primary)) |
       destruct (String.eqb cur (Name backup))];
      destruct (Main.flagDryRun fl); cbv zeta; simpl negb; cbv iota;
      rewrite events_run, ?probes_app, ?switchDefaultRoute_run, ?events_run, Hpr;
      simpl; try reflexivity;
      match goal with
      | |- context [match ?x with Some _ => _ | None => _ end] => destruct x; reflexivity
      end.
  - left. rewrite (doCheckOnce_inspection_failed _ _ _ _ _ _ Hi), app_nil_r, events_run.
    apply (inspection_events_only _ Hi).
Qed.

(** X19.  Every probe of the main loop is [ping] through the primary
    interface to the address of the check-ip flag; the backup interface is
    never probed.  The loop probes at most once for each tick it receives
    before the context is done. *)
Theorem mainLoop_probes_primary_only
    primary primaryGw backup backupGw (received : list select_case) (w : World) :
  let p := probes (boundary (pevents (MainEntry.mainLoop fl primary primaryGw backup
                                        backupGw received w))) in
  Forall (fun argv => argv = ["ping"; "-I"; Name primary; "-c1"; Main.flagCheckIP fl]) p /\
  (length p <= ticks_before_done received)%nat.
Proof.
  cbv zeta. revert w. induction received as [|c rest IH]; intros w;
    [split; [constructor | reflexivity]|].
  destruct c; [split; [constructor | reflexivity]|].
  rewrite mainLoop_tick, pevents_run. cbn [boundary ticks_before_done].
  rewrite !boundary_app, boundary_map. cbn [probes].
  rewrite !probes_app.
  destruct (IH (world (Main.doCheckOnce fl primary primaryGw backup backupGw w)))
    as [IHa IHl].
  assert (E : probes (boundary match value (Main.doCheckOnce fl primary primaryGw backup
                                              backupGw w) with
                               | Some e => [Boundary (EvLog "error checking: %v" [AError e])]
                               | None => []
                               end) = []).
  { destruct (value (Main.doCheckOnce fl primary primaryGw backup backupGw w)); reflexivity. }
  rewrite E. cbn [app].
  destruct (doCheckOnce_probes primary primaryGw backup backupGw w) as [-> | ->].
  - split; [exact IHa | simpl; lia].
  - split; [constructor; [reflexivity | exact IHa] | simpl; lia].
Qed.

Lemma mainLoop_mutations_paired
      primary primaryGw backup backupGw (received : list select_case) (w : World) :
  let m := mutations (boundary (pevents (MainEntry.mainLoop fl primary primaryGw backup
                                           backupGw received w))) in
  paired m = true /\ Forall (fun x => Dst (mutation_route x) = defaultDst) m.
Proof.
  cbv zeta. revert w. induction received as [|c rest IH]; intros w;
    [split; [reflexivity | constructor]|].
  destruct c; [split; [reflexivity | constructor]|].
  rewrite mainLoop_tick, pevents_run. cbn [boundary].
  rewrite !boundary_app, boundary_map. cbn [mutations mutation_of].
  rewrite !mutations_app.
  destruct (IH (world (Main.doCheckOnce fl primary primaryGw backup backupGw w)))
    as [IHp IHd].
  assert (E : mutations (boundary match value (Main.doCheckOnce fl primary primaryGw backup
                                                 backupGw w) with
                                  | Some e => [Boundary (EvLog "error checking: %v" [AError e])]
                                  | None => []
                                  end) = []).
  { destruct (value (Main.doCheckOnce fl primary primaryGw backup backupGw w)); reflexivity. }
  rewrite E. cbn [app].
  destruct (doCheckOnce_mutations_cases fl primary backup primaryGw backupGw w)
    as [-> | [-> | ->]]; unfold switch_mutations; cbn [app paired].
  - split; assumption.
  - split; [exact IHp | repeat (apply Forall_cons; [reflexivity|]); exact IHd].
  - split; [exact IHp | repeat (apply Forall_cons; [reflexivity|]); exact IHd].
Qed.

(** X20.  Over a whole run of [main], every route the process deletes or adds
    is a default route (destination 0.0.0.0/0), and the mutations come in
    pairs: each delete is followed at once by an add, and nothing is added
    without a delete before it. *)
Theorem main_mutations_default_routes_in_pairs (received : list select_case) (w : World) :
  let m := mutations (boundary (pevents (MainEntry.main fl interval received w))) in
  paired m = true /\ Forall (fun x => Dst (mutation_route x) = defaultDst) m.
Proof.
  cbv zeta.
  destruct (main_cases fl interval received w)
    as [(w' & pre & format & args & -> & Q) |
        [(w' & pre & -> & Q & _) |
         (primary & primaryGw & backup & backupGw & w' & pre & _ & -> & Q)]];
    destruct Q as (Qm & _); rewrite pevents_run;
    rewrite ?boundary_app, ?mutations_app, Qm.
  - split; [reflexivity | constructor].
  - split; [reflexivity | constructor].
  - apply mainLoop_mutations_paired.
Qed.

End WholeRun.

(* ===================================================================== *)
(** ** More runs on the deterministic host *)

Import FixtureEntry.

Lemma doCheckOnce_inspection_failure_witness :
  check false no_route =
    (Some (Errorf_no_routes (net_IPv4 8 8 8 8)), no_route,
     [EvRouteGet (net_IPv4 8 8 8 8) (Ok [])]) /\
  probes (events (check false no_route)) = [].
Proof.
  pose proof (@doCheckOnce_inspection_failure host (flags false) eth0 wwan0 gw_eth0 gw_wwan0
                no_route no_route (Errorf_no_routes (net_IPv4 8 8 8 8))
                [EvRouteGet (net_IPv4 8 8 8 8) (Ok [])] eq_refl) as H.
  split; [exact (proj1 H) | exact (proj1 (proj2 H))].
Defined.

Lemma doCheckOnce_probe_and_destination_witness :
  probes (events (check false primary_back)) = [["ping"; "-I"; "eth0"; "-c1"; "8.8.8.8"]].
Proof.
  exact (proj2 (@doCheckOnce_probe_and_destination host (flags false) eth0 wwan0
                  gw_eth0 gw_wwan0 primary_back)
               "wwan0" primary_back _ eq_refl).
Defined.

Lemma doCheckOnce_dry_run_error_witness :
  Main.flagDryRun (flags true) = true /\
  value (check true no_route) = Some (Errorf_no_routes (net_IPv4 8 8 8 8)).
Proof.
  split; [reflexivity|].
  apply (proj2 (@doCheckOnce_dry_run_error host (flags true) eth0 wwan0 gw_eth0 gw_wwan0
                  no_route (Errorf_no_routes (net_IPv4 8 8 8 8)) eq_refl)).
  reflexivity.
Defined.

Lemma backends_ignore_final_newline_witness :
  lease3 = (lease3_open ++ String LF EmptyString)%string /\
  value (Main.getGatewaySystemdNetworkd (P := host) wwan0 (lease_host lease3)) =
  value (Main.getGatewaySystemdNetworkd (P := host) wwan0 (lease_host lease3_open)).
Proof.
  split; [reflexivity|].
  apply (proj1 (@backends_ignore_final_newline host wwan0 (lease_host lease3_open)
                  (lease_host lease3) lease3_open)); reflexivity.
Defined.

Lemma lease_file_per_index_witness :
  Index wwan0 = Index usb0 /\
  Main.getGatewaySystemdNetworkd (P := host) wwan0 primary_fine =
  Main.getGatewaySystemdNetworkd (P := host) usb0 primary_fine.
Proof.
  split; [reflexivity|].
  apply (proj1 (@lease_file_per_index host wwan0 usb0 primary_fine primary_fine)).
  reflexivity.
Defined.

Lemma parseOrGetGateway_unconfigured_witness :
  Main.parseOrGetGateway (P := host) flags_unconfigured "not-an-address" wwan0 primary_fine =
  (Err (ErrorsNew "unimplemented"), primary_fine, []).
Proof.
  apply (@parseOrGetGateway_unconfigured host flags_unconfigured); reflexivity.
Defined.


Lemma main_dry_run_never_mutates_witness :
  pvalue (run_main true [TickerC; TickerC; CtxDone] primary_silent) = Returned /\
  mutations (boundary (pevents (run_main true [TickerC; TickerC; CtxDone] primary_silent))) = [].
Proof.
  split; [reflexivity|].
  apply (@main_dry_run_never_mutates host registry (flags true) 5000000000). reflexivity.
Defined.

Lemma part000_main_is_the_start_witness :
  pvalue (Part000Entry.main (P := host) (R := registry) flags000 primary_fine) = Returned /\
  MainEntry.main (P := host) (R := registry) (flags false) 5000000000 [] primary_fine =
  (Selecting,
   pworld (Part000Entry.main (P := host) (R := registry) flags000 primary_fine),
   pevents (Part000Entry.main (P := host) (R := registry) flags000 primary_fine)).
Proof.
  split; [reflexivity|].
  apply (@part000_main_is_the_start host registry (flags false) 5000000000 flags000
           primary_fine eq_refl eq_refl eq_refl eq_refl eq_refl eq_refl).
Defined.

(** The whole process on the host: the primary is silent, the first tick
    switches to the backup, the second changes nothing, then the context is
    done. *)
Example main_two_ticks_then_done :
  pvalue (run_main false [TickerC; TickerC; CtxDone; TickerC] primary_silent) = Returned /\
  mutations (boundary (pevents (run_main false [TickerC; TickerC; CtxDone; TickerC]
                                  primary_silent))) =
  [MDel (via eth0 gw_eth0); MAdd (via wwan0 gw_wwan0)].
Proof. split; reflexivity. Qed.

Lemma main_interval_not_positive_witness :
  pvalue (MainEntry.main (P := host) (R := registry) (flags false) 0
            [TickerC; CtxDone] primary_silent) = Panicked /\
  MainEntry.main (P := host) (R := registry) (flags false) 0
    [TickerC; CtxDone] primary_silent =
  MainEntry.main (P := host) (R := registry) (flags false) 0 [] primary_silent.
Proof.
  split; [reflexivity|].
  apply (proj2 (@main_interval_not_positive host registry (flags false) 0
                  [TickerC; CtxDone] primary_silent ltac:(lia))).
Defined.

(** A line of one repeated byte that is not a newline, a carriage return or
    a separator, in the functions of the scan. *)
Lemma length_repeat_char (c : ascii) (n : nat) : String.length (repeat_char c n) = n.
Proof. induction n as [|n IH]; simpl; [|rewrite IH]; reflexivity. Qed.

Lemma raw_lines_repeat_a (n : nat) (rest : string) :
  raw_lines (repeat_char "a" n ++ String LF rest) = repeat_char "a" n :: raw_lines rest.
Proof.
  induction n as [|n IH]; [reflexivity|].
  cbn [repeat_char String.append raw_lines]. rewrite IH. reflexivity.
Qed.

Lemma dropCR_repeat_a (n : nat) : dropCR (repeat_char "a" n) = repeat_char "a" n.
Proof.
  induction n as [|n IH]; [reflexivity|].
  cbn [repeat_char dropCR]. rewrite IH. destruct n; reflexivity.
Qed.

Lemma strings_Cut_repeat_a (n : nat) :
  strings_Cut (repeat_char "a" n) "=" = (repeat_char "a" n, EmptyString, false).
Proof.
  induction n as [|n IH]; [reflexivity|].
  cbn [repeat_char strings_Cut]. rewrite IH. reflexivity.
Qed.

Lemma lease_host_open (content : string) :
  host_Open "/run/systemd/netif/leases/3" (lease_host content) =
  (Ok content, lease_host content).
Proof. reflexivity. Qed.

Lemma fits_token_long_line : fits_token long_line = false.
Proof.
  unfold fits_token, long_line. rewrite length_repeat_char, N2Nat.id. reflexivity.
Qed.

(** C5 as the claim states it fails: the second line of this lease file has
    the key ROUTER and a value that parses, and no line before it has; the
    first line is one byte too long for the scanner, the scan ends there, and
    the backend fails with the not-found error. *)
Lemma lease_long_line_counterexample :
  host_Open "/run/systemd/netif/leases/3" (lease_host long_lease) =
    (Ok long_lease, lease_host long_lease) /\
  map dropCR (raw_lines long_lease) = [long_line; "ROUTER=10.0.0.1"] /\
  N.of_nat (String.length long_line) = 65536%N /\
  lease_line_skipped long_line /\
  lease_line_router "ROUTER=10.0.0.1" "10.0.0.1" /\
  ParseAddr "10.0.0.1" = Ok gw_wwan0 /\
  scanner_lines long_lease = [] /\
  value (Main.getGatewaySystemdNetworkd (P := host) wwan0 (lease_host long_lease)) =
    Err (ErrorsNew "ROUTER not found in lease file") /\
  value (Main.getGatewaySystemdNetworkd (P := host) wwan0 (lease_host long_lease)) <>
    ParseAddr "10.0.0.1".
Proof.
  assert (L : raw_lines long_lease = [long_line; "ROUTER=10.0.0.1"]).
  { unfold long_lease, long_line. rewrite raw_lines_repeat_a. reflexivity. }
  assert (S0 : scanner_lines long_lease = []).
  { unfold scanner_lines. rewrite L. cbn [take_while].
    rewrite fits_token_long_line. reflexivity. }
  assert (E : value (Main.getGatewaySystemdNetworkd (P := host) wwan0
                       (lease_host long_lease)) =
              Err (ErrorsNew "ROUTER not found in lease file")).
  { rewrite getGatewaySystemdNetworkd_run. unfold value. cbn [fst].
    change (@os_Open host (filepath_Join "/run/systemd/netif/leases"
                             (strconv_Itoa (Index wwan0))) (lease_host long_lease))
      with (host_Open "/run/systemd/netif/leases/3" (lease_host long_lease)).
    rewrite lease_host_open. cbn [fst]. rewrite S0. reflexivity. }
  split; [apply lease_host_open|].
  split; [rewrite L; cbn [map]; unfold long_line; rewrite dropCR_repeat_a; reflexivity|].
  split; [unfold long_line; rewrite length_repeat_char, N2Nat.id; reflexivity|].
  split; [right; left; unfold long_line; rewrite strings_Cut_repeat_a; reflexivity|].
  split; [split; reflexivity|].
  split; [reflexivity|].
  split; [exact S0|].
  split; [exact E|].
  rewrite E. discriminate.
Qed.
